(** * Voice-agent relay: a shallow embedding of [main.py]

    The program is a FastAPI application with three relay endpoints
    ([/chat], [/stt], [/tts]), two health routes and a startup hook.
    Every handler is embedded as a function over an explicit description
    of what the outside world answers (the remote services, the file
    system, the identifier generator); the calls a handler makes are
    recorded in a trace, so that statements such as "no further polling
    call is made" are statements about that trace. *)

From Stdlib Require Import ZArith String Ascii List Lia Floats.
From stdpp Require Import base gmap strings list.
From Equations Require Import Equations.

#[local] Set Warnings "-register-all,-inexact-float".
#[local] Open Scope string_scope.

(** ** Python values and exceptions *)

Module Py.

(** The values that [json()] produces and that handlers return as JSON
    bodies.  A Python [dict] with string keys is a finite map. *)
Inductive pyval : Type :=
| PyNone
| PyBool (b : bool)
| PyInt (z : Z)
| PyFloat (f : float)
| PyStr (s : string)
| PyList (l : list pyval)
| PyDict (d : gmap string pyval).

(** The exception classes that matter to the handlers.  [BaseOnly] stands
    for the classes that derive from [BaseException] but not from
    [Exception] ([KeyboardInterrupt], [SystemExit], ...): a clause
    [except Exception] lets them through, a bare [except:] does not. *)
Inductive exc_class : Type :=
| KeyError | IndexError | TypeError | AttributeError | ValueError
| OtherException
| BaseOnly.

(** An exception instance: its class and the text of [str(e)]. *)
Record pyexc : Type := PyExc { exc_cls : exc_class; exc_str : string }.

Definition isinstance_Exception (e : pyexc) : bool :=
  match exc_cls e with
  | BaseOnly => false
  | _ => true
  end.

(** [str(e)] *)
Definition str (e : pyexc) : string := exc_str e.

(** [str(KeyError(k))] is [repr(k)]; for the keys used by the program
    (plain identifiers) that is the key between single quotes. *)
Definition key_error (k : string) : pyexc :=
  PyExc KeyError ("'" +:+ k +:+ "'").

(** What evaluating an expression or running a function body gives. *)
Inductive outcome (A : Type) : Type :=
| Returned (a : A)
| Raised (e : pyexc).
Arguments Returned {A} a.
Arguments Raised {A} e.

(** The name Python prints for the type of a value. *)
Definition type_name (v : pyval) : string :=
  match v with
  | PyNone => "NoneType"
  | PyBool _ => "bool"
  | PyInt _ => "int"
  | PyFloat _ => "float"
  | PyStr _ => "str"
  | PyList _ => "list"
  | PyDict _ => "dict"
  end.

(** [v[k]] for a string key [k]. *)
Definition getitem (v : pyval) (k : string) : outcome pyval :=
  match v with
  | PyDict d =>
      match d !! k with
      | Some x => Returned x
      | None => Raised (key_error k)
      end
  | PyList _ =>
      Raised (PyExc TypeError "list indices must be integers or slices, not str")
  | PyStr _ =>
      Raised (PyExc TypeError "string indices must be integers, not 'str'")
  | _ =>
      Raised (PyExc TypeError
                ("'" +:+ type_name v +:+ "' object is not subscriptable"))
  end.

(** [v.get(k, dflt)] *)
Definition get (v : pyval) (k : string) (dflt : pyval) : outcome pyval :=
  match v with
  | PyDict d => Returned (default dflt (d !! k))
  | _ =>
      Raised (PyExc AttributeError
                ("'" +:+ type_name v +:+ "' object has no attribute 'get'"))
  end.

(** [v == s] for a string literal [s]: true exactly on the string [s]. *)
Definition eq_str (v : pyval) (s : string) : bool :=
  match v with
  | PyStr t => String.eqb t s
  | _ => false
  end.

(** The dict literal [{k: v}]. *)
Definition payload_of (k : string) (v : pyval) : pyval := PyDict {[ k := v ]}.

(** [l[i]] on a list. *)
Definition list_getitem {A : Type} (l : list A) (i : nat) : outcome A :=
  match l !! i with
  | Some x => Returned x
  | None => Raised (PyExc IndexError "list index out of range")
  end.

(** The value of [os.getenv(k)] as a Python value. *)
Definition of_getenv (v : option string) : pyval :=
  match v with
  | None => PyNone
  | Some s => PyStr s
  end.

(** [bool(v)] for [v] the result of [os.getenv]: [None] and the empty
    string are falsy. *)
Definition truthy (v : option string) : bool :=
  match v with
  | None => false
  | Some s => negb (String.eqb s "")
  end.

End Py.
Import Py.

(** ** Calls recorded in a trace

    A computation yields an outcome and the list of the calls it made, in
    the order it made them.  A raised exception keeps the calls made
    before it. *)

Module Eff.

Section Trace.
Context {E : Type}.

Definition M (A : Type) : Type := outcome A * list E.

Definition ret {A : Type} (a : A) : M A := (Returned a, []).

Definition raise {A : Type} (e : pyexc) : M A := (Raised e, []).

Definition bind {A B : Type} (m : M A) (k : A -> M B) : M B :=
  match m with
  | (Returned a, t) => let '(r, t') := k a in (r, (t ++ t')%list)
  | (Raised e, t) => (Raised e, t)
  end.

(** Performing one call [ev] whose answer is [r]. *)
Definition call {A : Type} (ev : E) (r : outcome A) : M A := (r, [ev]).

(** Lifting a pure, possibly failing, evaluation. *)
Definition lift {A : Type} (r : outcome A) : M A := (r, []).

(** [try: body / except Exception as e: handler e] *)
Definition try_except_Exception {A : Type}
    (body : M A) (handler : pyexc -> M A) : M A :=
  match body with
  | (Returned a, t) => (Returned a, t)
  | (Raised e, t) =>
      if isinstance_Exception e
      then let '(r, t') := handler e in (r, (t ++ t')%list)
      else (Raised e, t)
  end.

End Trace.
Arguments M : clear implicits.

End Eff.
Import Eff.

Declare Scope eff_scope.
Delimit Scope eff_scope with eff.
Notation "x <- m ;; k" := (bind m (fun x => k))
  (at level 100, m at next level, right associativity) : eff_scope.
Notation "m ;;; k" := (bind m (fun _ => k))
  (at level 100, right associativity) : eff_scope.

(** ** Module initialisation: credentials (lines 13-24) and the app *)

Module Config.

(** [load_dotenv()]: the variables of the [.env] file are added to the
    process environment; a variable that is already set keeps its value. *)
Definition load_dotenv (dotenv environ : gmap string string)
  : gmap string string :=
  environ ∪ dotenv.

(** [os.getenv(k)] *)
Definition getenv (environ : gmap string string) (k : string)
  : option string :=
  environ !! k.

(** The two module-level globals, holding what [os.getenv] returned. *)
Record Globals : Type := {
  GROQ_API_KEY : option string;
  ASSEMBLYAI_API_KEY : option string
}.

(** Lines 16-24: read both variables, then validate them in order. *)
Definition load_credentials (environ : gmap string string)
  : outcome Globals :=
  let groq := getenv environ "GROQ_API_KEY" in
  let assemblyai := getenv environ "ASSEMBLYAI_API_KEY" in
  if negb (truthy groq)
  then Raised (PyExc ValueError "GROQ_API_KEY not found in .env")
  else if negb (truthy assemblyai)
  then Raised (PyExc ValueError "ASSEMBLYAI_API_KEY not found in .env")
  else Returned {| GROQ_API_KEY := groq; ASSEMBLYAI_API_KEY := assemblyai |}.

(** What the rest of the module body needs from the host: constructing
    the completion client and creating the temp directory may fail. *)
Record Host : Type := {
  groq_client_new : option string -> outcome unit;
  temp_dir_mkdir : outcome unit
}.

(** The application object once the module body has run: its globals and
    the routes the decorators registered, in source order. *)
Record App : Type := {
  app_globals : Globals;
  app_routes : list (string * string)
}.

Definition routes : list (string * string) :=
  [("POST", "/chat"); ("POST", "/stt"); ("POST", "/tts");
   ("GET", "/"); ("GET", "/health")].

(** The module body, lines 13-184: a failure at any step leaves no
    application object, hence no route to serve. *)
Definition module_init (host : Host) (dotenv environ : gmap string string)
  : outcome App :=
  match load_credentials (load_dotenv dotenv environ) with
  | Raised e => Raised e
  | Returned g =>
      match groq_client_new host (GROQ_API_KEY g) with
      | Raised e => Raised e
      | Returned _ =>
          match temp_dir_mkdir host with
          | Raised e => Raised e
          | Returned _ =>
              Returned {| app_globals := g; app_routes := routes |}
          end
      end
  end.

End Config.
Import Config.

(** ** Health routes (lines 173-184) *)

Module Health.

Definition root : pyval :=
  PyDict {[ "status" := PyStr "Voice Agent API is running" ]}.

Definition health (g : Globals) : pyval :=
  PyDict {[ "status" := PyStr "healthy";
            "groq_configured" := PyBool (truthy (GROQ_API_KEY g));
            "assemblyai_configured" := PyBool (truthy (ASSEMBLYAI_API_KEY g)) ]}.

End Health.
Import Health.

(** ** Speech to text (lines 71-129) *)

Module Stt.

(** A [requests] response: its status code and what [.json()] gives. *)
Record http_response : Type := {
  status_code : Z;
  json : outcome pyval
}.

(** The addresses the handler talks to.  The polling address is the
    f-string [".../v2/transcript/{transcript_id}"], kept as the prefix and
    the formatted value. *)
Inductive url : Type :=
| Url (address : string)
| UrlF (prefix : string) (arg : pyval).

Inductive payload : Type :=
| Data (bytes : list Byte.byte)
| Json (v : pyval).

(** The calls of the handler that reach outside of it. *)
Inductive event : Type :=
| FileRead
| Post (u : url) (headers : gmap string pyval) (body : payload)
| Get (u : url) (headers : gmap string pyval)
| Sleep (secs : Z).

(** What the outside answers during one request: the uploaded file, the
    two POST endpoints, and the status endpoint, whose answer may differ
    from one poll to the next ([poll_reply u n] answers the GET on [u]
    that follows [n] earlier polls). *)
Record Remote : Type := {
  file_read : outcome (list Byte.byte);
  upload_reply : gmap string pyval -> list Byte.byte -> outcome http_response;
  transcript_reply : gmap string pyval -> pyval -> outcome http_response;
  poll_reply : url -> nat -> outcome http_response
}.

Definition upload_url : url := Url "https://api.assemblyai.com/v2/upload".
Definition transcript_url : url := Url "https://api.assemblyai.com/v2/transcript".
Definition polling_url (transcript_id : pyval) : url :=
  UrlF "https://api.assemblyai.com/v2/transcript/" transcript_id.

Definition max_attempts : nat := 60.

Definition inspect {A : Type} (a : A) : { b : A | a = b } := exist _ a eq_refl.

Section Handler.
Variable g : Globals.
Variable remote : Remote.

#[local] Open Scope eff_scope.

Definition auth_headers : gmap string pyval :=
  {[ "authorization" := of_getenv (ASSEMBLYAI_API_KEY g) ]}.

(** Lines 111-126: the [while attempt < max_attempts] loop, entered with
    the current value of [attempt]. *)
Equations? poll_while (polling_url : url) (attempt : nat)
  : M event pyval by wf (max_attempts - attempt) lt :=
  poll_while polling_url attempt with inspect (attempt <? max_attempts)%nat := {
    | exist _ true Hlt =>
        response <- call (Get polling_url auth_headers)
                         (poll_reply remote polling_url attempt) ;;
        polling <- lift (json response) ;;
        status <- lift (getitem polling "status") ;;
        if eq_str status "completed" then
          text <- lift (getitem polling "text") ;;
          ret (payload_of "text" text)
        else
          status <- lift (getitem polling "status") ;;
          if eq_str status "error" then
            message <- lift (get polling "error" (PyStr "Transcription failed")) ;;
            ret (payload_of "error" message)
          else
            call (Sleep 1) (Returned tt) ;;;
            poll_while polling_url (attempt + 1)%nat
    | exist _ false _ =>
        ret (payload_of "error" (PyStr "Transcription timeout")) }.
Proof.
  apply Nat.ltb_lt in Hlt. lia.
Qed.

(** Lines 74-126: the body of the [try]. *)
Definition speech_to_text_body : M event pyval :=
  audio_bytes <- call FileRead (file_read remote) ;;
  let headers : gmap string pyval :=
    {[ "authorization" := of_getenv (ASSEMBLYAI_API_KEY g);
       "content-type" := PyStr "application/octet-stream" ]} in
  upload <- call (Post upload_url headers (Data audio_bytes))
                 (upload_reply remote headers audio_bytes) ;;
  if negb (status_code upload =? 200)%Z then
    ret (payload_of "error" (PyStr "Failed to upload audio"))
  else
    upload_json <- lift (json upload) ;;
    audio_url <- lift (getitem upload_json "upload_url") ;;
    transcript_req <- call (Post transcript_url auth_headers
                                 (Json (payload_of "audio_url" audio_url)))
                           (transcript_reply remote auth_headers audio_url) ;;
    if negb (status_code transcript_req =? 200)%Z then
      ret (payload_of "error" (PyStr "Failed to request transcription"))
    else
      transcript_json <- lift (json transcript_req) ;;
      transcript_id <- lift (getitem transcript_json "id") ;;
      poll_while (polling_url transcript_id) 0.

(** Lines 72-129: the handler. *)
Definition speech_to_text : M event pyval :=
  try_except_Exception speech_to_text_body
    (fun e => ret (payload_of "error" (PyStr (str e)))).

End Handler.

(** Counting the calls of one kind in a trace. *)
Definition is_poll (ev : event) : bool :=
  match ev with Get _ _ => true | _ => false end.

Definition is_sleep (ev : event) : bool :=
  match ev with Sleep _ => true | _ => false end.

Definition is_submission (ev : event) : bool :=
  match ev with
  | Post (Url "https://api.assemblyai.com/v2/transcript") _ _ => true
  | _ => false
  end.

Definition count (p : event -> bool) (t : list event) : nat :=
  length (List.filter p t).

End Stt.
Import Stt.

(** ** Chat (lines 47-64) *)

Module Chat.

(** The completion object of the client library.  A reply of unexpected
    shape shows as a missing ([None]) attribute or an empty list. *)
Record ChatCompletionMessage : Type := { content : option string }.
Record Choice : Type := { message : option ChatCompletionMessage }.
Record ChatCompletion : Type := { choices : option (list Choice) }.

(** The arguments of [chat.completions.create]. *)
Record CompletionRequest : Type := {
  model : string;
  messages : list (gmap string pyval);
  temperature : float;
  max_tokens : Z
}.

(** The remote completion service: an answer or a raised exception. *)
Record GroqClient : Type := {
  create : CompletionRequest -> outcome ChatCompletion
}.

Definition system_prompt : string :=
  "You are a helpful voice assistant. Keep your responses concise and conversational.".

Definition request_for (user_message : string) : CompletionRequest :=
  {| model := "llama-3.3-70b-versatile";
     messages :=
       [ {[ "role" := PyStr "system"; "content" := PyStr system_prompt ]};
         {[ "role" := PyStr "user"; "content" := PyStr user_message ]} ];
     temperature := 0.7%float;
     max_tokens := 1024 |}.

(** [completion.choices[0]] *)
Definition first_choice (completion : ChatCompletion) : outcome Choice :=
  match choices completion with
  | Some l => list_getitem l 0
  | None => Raised (PyExc TypeError "'NoneType' object is not subscriptable")
  end.

(** [choice.message.content] *)
Definition message_content (choice : Choice) : outcome pyval :=
  match message choice with
  | Some m => Returned (of_getenv (content m))
  | None =>
      Raised (PyExc AttributeError
                "'NoneType' object has no attribute 'content'")
  end.

#[local] Open Scope eff_scope.

Definition chat (groq_client : GroqClient) (user_message : string)
  : M CompletionRequest pyval :=
  try_except_Exception
    (completion <- call (request_for user_message)
                        (create groq_client (request_for user_message)) ;;
     choice <- lift (first_choice completion) ;;
     reply <- lift (message_content choice) ;;
     ret (payload_of "response" reply))
    (fun e => ret (payload_of "response" (PyStr ("Error: " +:+ str e)))).

End Chat.
Import Chat.

(** ** The temp directory, text to speech (lines 136-152) and the
       startup cleanup (lines 159-166) *)

Module Files.

(** The content of [TEMP_DIR]: file name to file content. *)
Definition TEMP_DIR : string := "temp_audio".

(** [dir / name] *)
Definition path_join (dir name : string) : string := dir +:+ "/" +:+ name.

(** [s] ends with [suffix]. *)
Fixpoint ends_with (suffix s : string) : bool :=
  String.eqb s suffix ||
  match s with
  | EmptyString => false
  | String _ s' => ends_with suffix s'
  end.

(** The names the pattern ["*.mp3"] matches. *)
Definition matches_mp3 (name : string) : bool := ends_with ".mp3" name.

(** [TEMP_DIR.glob("*.mp3")]: the matching entries of the directory. *)
Definition glob_mp3 (dir : gmap string (list Byte.byte)) : list string :=
  filter (fun name => matches_mp3 name = true) (elements (dom dir)).

End Files.
Import Files.

Module Tts.

(** Starlette's [FileResponse], with the fields the handler sets.  The
    background task, when there is one, runs on the directory after the
    body has been sent. *)
Record FileResponse : Type := {
  path : string;
  media_type : string;
  filename : string;
  background : option (gmap string (list Byte.byte) -> gmap string (list Byte.byte))
}.

Inductive response : Type :=
| JSONBody (body : pyval)
| FileBody (r : FileResponse).

(** What [tts.save] does: it writes the audio, or it raises and leaves
    nothing or a partial file behind. *)
Inductive save_result : Type :=
| Saved (audio : list Byte.byte)
| SaveFailed (e : pyexc) (left_behind : option (list Byte.byte)).

(** The synthesis library and the identifier generator:
    [uuid4 n] is [str(uuid.uuid4())] of the draw that follows [n] earlier
    ones. *)
Record Host : Type := {
  uuid4 : nat -> string;
  gTTS : string -> string -> outcome unit;
  save : string -> save_result
}.

(** The state a request runs in: the temp directory and the number of
    identifiers drawn so far. *)
Record World : Type := {
  temp_dir : gmap string (list Byte.byte);
  draws : nat
}.

Definition caught (e : pyexc) (w : World) : outcome response * World :=
  if isinstance_Exception e
  then (Returned (JSONBody (payload_of "error" (PyStr (str e)))), w)
  else (Raised e, w).

Definition text_to_speech (host : Host) (text : string) (w : World)
  : outcome response * World :=
  let name := uuid4 host (draws w) +:+ ".mp3" in
  let filename := path_join TEMP_DIR name in
  let w := {| temp_dir := temp_dir w; draws := S (draws w) |} in
  match gTTS host text "en" with
  | Raised e => caught e w
  | Returned _ =>
      match save host text with
      | SaveFailed e left_behind =>
          caught e {| temp_dir :=
                        match left_behind with
                        | Some partial => <[ name := partial ]> (temp_dir w)
                        | None => temp_dir w
                        end;
                      draws := draws w |}
      | Saved audio =>
          (Returned (FileBody {| path := filename;
                                 media_type := "audio/mpeg";
                                 filename := "speech.mp3";
                                 background := None |}),
           {| temp_dir := <[ name := audio ]> (temp_dir w);
              draws := draws w |})
      end
  end.

(** What the framework does with a response once its body is sent. *)
Definition after_send (r : response) (w : World) : World :=
  match r with
  | FileBody {| background := Some task |} =>
      {| temp_dir := task (temp_dir w); draws := draws w |}
  | _ => w
  end.

End Tts.
Import Tts.

Module Cleanup.

(** [unlink name]: [None] when the file was deleted, [Some e] when the
    call raised [e] and the file is still there. *)
Definition unlink_one (unlink : string -> option pyexc)
    (dir : gmap string (list Byte.byte)) (name : string)
  : gmap string (list Byte.byte) :=
  match unlink name with
  | None => delete name dir
  | Some _ => dir
  end.

(** The loop visits the entries that matched when it started; the bare
    [except: pass] drops every exception, whatever its class. *)
Definition cleanup_old_files (unlink : string -> option pyexc)
    (dir : gmap string (list Byte.byte))
  : outcome unit * gmap string (list Byte.byte) :=
  (Returned tt, foldl (unlink_one unlink) dir (glob_mp3 dir)).

End Cleanup.
Import Cleanup.

(** ** Vocabulary of the statements about [/stt] *)

Module SttSpec.

(** The field [k] of the JSON object a reply decodes to, when the call
    returned, the body decodes to an object and the object has the field. *)
Definition reply_field (r : outcome http_response) (k : string)
  : option pyval :=
  match r with
  | Returned response =>
      match json response with
      | Returned (PyDict d) => d !! k
      | _ => None
      end
  | Raised _ => None
  end.

(** A poll reply whose status is there and is neither ["completed"] nor
    ["error"]: the job is still queued or processing. *)
Definition non_terminal (r : outcome http_response) : bool :=
  match reply_field r "status" with
  | Some status => negb (eq_str status "completed") && negb (eq_str status "error")
  | None => false
  end.

Definition upload_headers (g : Globals) : gmap string pyval :=
  {[ "authorization" := of_getenv (ASSEMBLYAI_API_KEY g);
     "content-type" := PyStr "application/octet-stream" ]}.

(** The request gets as far as the polling loop: the file is read, the
    upload and the submission both answer 200 with the fields the handler
    reads, and the job identifier is [transcript_id]. *)
Definition reaches_polling (g : Globals) (remote : Remote)
    (audio_bytes : list Byte.byte) (audio_url transcript_id : pyval) : Prop :=
  file_read remote = Returned audio_bytes ∧
  ∃ upload upload_json transcript_req transcript_json,
    upload_reply remote (upload_headers g) audio_bytes = Returned upload ∧
    status_code upload = 200%Z ∧
    json upload = Returned upload_json ∧
    getitem upload_json "upload_url" = Returned audio_url ∧
    transcript_reply remote (auth_headers g) audio_url = Returned transcript_req ∧
    status_code transcript_req = 200%Z ∧
    json transcript_req = Returned transcript_json ∧
    getitem transcript_json "id" = Returned transcript_id.

(** The calls made before the loop is entered. *)
Definition setup_trace (g : Globals) (audio_bytes : list Byte.byte)
    (audio_url : pyval) : list event :=
  [ FileRead;
    Post upload_url (upload_headers g) (Data audio_bytes);
    Post transcript_url (auth_headers g) (Json (payload_of "audio_url" audio_url)) ].

(** One poll followed by its one-second sleep, and [n] of them in a row. *)
Definition round (g : Globals) (u : url) : list event :=
  [ Get u (auth_headers g); Sleep 1 ].

Definition rounds (g : Globals) (u : url) (n : nat) : list event :=
  concat (replicate n (round g u)).

End SttSpec.
Import SttSpec.

(** ** Vocabulary of the statement about [/chat] *)

Module ChatSpec.

(** The ways obtaining the completion can fail: the call itself raises
    (network, remote error), or the object it returns does not have the
    shape [choices[0].message.content] (malformed response). *)
Inductive completion_fails (groq_client : GroqClient) (user_message : string)
  : pyexc -> Prop :=
| call_raises e :
    create groq_client (request_for user_message) = Raised e ->
    completion_fails groq_client user_message e
| no_first_choice completion e :
    create groq_client (request_for user_message) = Returned completion ->
    first_choice completion = Raised e ->
    completion_fails groq_client user_message e
| no_message completion choice e :
    create groq_client (request_for user_message) = Returned completion ->
    first_choice completion = Returned choice ->
    message_content choice = Raised e ->
    completion_fails groq_client user_message e.

End ChatSpec.
Import ChatSpec.

(** ** Sample worlds

    Concrete remotes on which the statements below are instantiated. *)

Module Demo.

Definition globals : Globals :=
  {| GROQ_API_KEY := Some "gsk_demo"; ASSEMBLYAI_API_KEY := Some "aai_demo" |}.

Definition audio : list Byte.byte := [Byte.x52; Byte.x49; Byte.x46; Byte.x46].

Definition ok_json (v : pyval) : http_response :=
  {| status_code := 200; json := Returned v |}.

Definition processing : outcome http_response :=
  Returned (ok_json (payload_of "status" (PyStr "processing"))).

Definition completed (text : string) : outcome http_response :=
  Returned (ok_json (PyDict {[ "status" := PyStr "completed";
                               "text" := PyStr text ]})).

Definition failed : outcome http_response :=
  Returned (ok_json (payload_of "status" (PyStr "error"))).

Definition audio_url : pyval := PyStr "https://cdn.assemblyai.com/upload/1".
Definition job : pyval := PyStr "job-1".

(** A remote that accepts the upload and the submission and answers the
    polls with [polls]. *)
Definition remote_with (polls : nat -> outcome http_response) : Remote :=
  {| file_read := Returned audio;
     upload_reply := fun _ _ => Returned (ok_json (payload_of "upload_url" audio_url));
     transcript_reply := fun _ _ => Returned (ok_json (payload_of "id" job));
     poll_reply := fun _ n => polls n |}.

Definition completes_on_third (n : nat) : outcome http_response :=
  match n with
  | 2 => completed "hello world"
  | _ => processing
  end.

Definition fails_on_second (n : nat) : outcome http_response :=
  match n with
  | 1 => failed
  | _ => processing
  end.

Definition never_finishes (n : nat) : outcome http_response := processing.

(** A remote whose upload endpoint answers 500. *)
Definition rejects_upload : Remote :=
  {| file_read := Returned audio;
     upload_reply := fun _ _ =>
       Returned {| status_code := 500; json := Returned PyNone |};
     transcript_reply := fun _ _ => Returned (ok_json (payload_of "id" job));
     poll_reply := fun _ n => processing |}.

(** An environment with both credentials, and one in which the first
    is set to the empty string. *)
Definition environ : gmap string string :=
  {[ "GROQ_API_KEY" := "gsk_demo"; "ASSEMBLYAI_API_KEY" := "aai_demo" ]}.

Definition environ_empty_key : gmap string string :=
  {[ "GROQ_API_KEY" := ""; "ASSEMBLYAI_API_KEY" := "aai_demo" ]}.

Definition environ_no_groq : gmap string string :=
  {[ "ASSEMBLYAI_API_KEY" := "aai_demo" ]}.

Definition host : Config.Host :=
  {| groq_client_new := fun _ => Returned tt; temp_dir_mkdir := Returned tt |}.

(** A completion service that is unreachable. *)
Definition connection_error : pyexc := PyExc OtherException "Connection error.".

Definition unreachable : GroqClient :=
  {| create := fun _ => Raised connection_error |}.

(** A synthesis library that works, with identifiers ["id-0"], ["id-00"],
    ... *)
Fixpoint zeros (n : nat) : string :=
  match n with
  | O => "0"
  | S n => String "0" (zeros n)
  end.

Definition tts_host : Tts.Host :=
  {| uuid4 := fun n => "id-" +:+ zeros n;
     gTTS := fun _ _ => Returned tt;
     save := fun _ => Saved audio |}.

Definition empty_world : World := {| temp_dir := ∅; draws := 0 |}.

(** A temp directory with two generated files, and an [unlink] that
    always works. *)
Definition two_files : gmap string (list Byte.byte) :=
  {[ "a.mp3" := audio; "b.mp3" := [] ]}.

Definition unlink_ok (name : string) : option pyexc := None.

End Demo.
(** ** Vocabulary of the further statements *)

Module RunSpec.

(** The request [ev] carries the transcription credential in its
    [authorization] header; the calls that are no HTTP request have
    nothing to carry. *)
Definition authenticated (g : Globals) (ev : event) : Prop :=
  match ev with
  | Post _ headers _ | Get _ headers =>
      headers !! "authorization" = Some (of_getenv (ASSEMBLYAI_API_KEY g))
  | FileRead | Sleep _ => True
  end.

(** The calls the loop on address [u] can make. *)
Definition loop_call (g : Globals) (u : url) (ev : event) : Prop :=
  ev = Get u (auth_headers g) \/ ev = Sleep 1.

(** The request [ev] carries the string [key] as its credential. *)
Definition sends_key (key : string) (ev : event) : Prop :=
  match ev with
  | Post _ headers _ | Get _ headers =>
      headers !! "authorization" = Some (PyStr key)
  | FileRead | Sleep _ => True
  end.

(** A JSON body with the single key [k]. *)
Definition has_single_key (k : string) (v : pyval) : Prop :=
  exists x, v = payload_of k x.

(** The two shapes of a [/stt] body. *)
Definition stt_payload (v : pyval) : Prop :=
  has_single_key "text" v \/ has_single_key "error" v.

(** A completion whose first choice carries [reply]. *)
Definition completion_with (reply : option string) : ChatCompletion :=
  {| choices := Some [ {| message := Some {| content := reply |} |} ] |}.

End RunSpec.
Import RunSpec.

(** ** Further sample worlds *)

Module Demo2.

(** A remote whose submission endpoint answers 503. *)
Definition rejects_submission : Remote :=
  {| file_read := Returned Demo.audio;
     upload_reply := fun _ _ =>
       Returned (Demo.ok_json (payload_of "upload_url" Demo.audio_url));
     transcript_reply := fun _ _ =>
       Returned {| status_code := 503; json := Returned PyNone |};
     poll_reply := fun _ _ => Demo.processing |}.

(** A remote whose upload answers 200 with an object that has no
    [upload_url]. *)
Definition upload_without_url : Remote :=
  {| file_read := Returned Demo.audio;
     upload_reply := fun _ _ => Returned (Demo.ok_json (PyDict ∅));
     transcript_reply := fun _ _ =>
       Returned (Demo.ok_json (payload_of "id" Demo.job));
     poll_reply := fun _ _ => Demo.processing |}.

(** Poll scripts: the second reply says ["completed"] without a [text];
    the second poll cannot reach the service. *)
Definition no_text_on_second (n : nat) : outcome http_response :=
  match n with
  | 1 => Returned (Demo.ok_json (payload_of "status" (PyStr "completed")))
  | _ => Demo.processing
  end.

(** The second reply says ["error"] and carries [null] as its message. *)
Definition null_error_on_second (n : nat) : outcome http_response :=
  match n with
  | 1 => Returned (Demo.ok_json (PyDict {[ "status" := PyStr "error";
                                           "error" := PyNone ]}))
  | _ => Demo.processing
  end.

Definition timed_out : pyexc := PyExc OtherException "Read timed out.".

Definition unreachable_on_second (n : nat) : outcome http_response :=
  match n with
  | 1 => Raised timed_out
  | _ => Demo.processing
  end.

(** A completion service that answers ["Hi there"]. *)
Definition friendly : GroqClient :=
  {| create := fun _ => Returned (completion_with (Some "Hi there")) |}.

(** A completion service whose answer reads like a failure. *)
Definition misleading : GroqClient :=
  {| create := fun _ =>
       Returned (completion_with (Some "Error: Connection error.")) |}.

(** A synthesis library that refuses the text. *)
Definition no_text : pyexc := PyExc OtherException "No text to speak".

Definition refusing_tts : Tts.Host :=
  {| uuid4 := fun n => "id-" +:+ Demo.zeros n;
     gTTS := fun _ _ => Raised no_text;
     save := fun _ => Saved Demo.audio |}.

(** An identifier generator that repeats itself. *)
Definition repeating_tts : Tts.Host :=
  {| uuid4 := fun _ => "same";
     gTTS := fun _ _ => Returned tt;
     save := fun text => Saved (if String.eqb text "first" then Demo.audio else []) |}.

End Demo2.

(** * Properties *)

(** ** The polling loop *)

Section PollingLoop.
Variable g : Globals.
Variable remote : Remote.
Variable u : url.

Lemma poll_while_unfold attempt :
  poll_while g remote u attempt =
  if (attempt <? max_attempts)%nat then
    (response <- call (Get u (auth_headers g)) (poll_reply remote u attempt) ;;
     polling <- lift (json response) ;;
     status <- lift (getitem polling "status") ;;
     if eq_str status "completed" then
       text <- lift (getitem polling "text") ;;
       ret (payload_of "text" text)
     else
       status <- lift (getitem polling "status") ;;
       if eq_str status "error" then
         message <- lift (get polling "error" (PyStr "Transcription failed")) ;;
         ret (payload_of "error" message)
       else
         call (Sleep 1) (Returned tt) ;;;
         poll_while g remote u (attempt + 1)%nat)%eff
  else ret (payload_of "error" (PyStr "Transcription timeout")).
Proof.
  funelim (poll_while g remote u attempt).
  - rewrite Hlt. reflexivity.
  - rewrite e. reflexivity.
Qed.

Lemma reply_field_inv r k v :
  reply_field r k = Some v ->
  exists response d,
    r = Returned response /\ json response = Returned (PyDict d) /\ d !! k = Some v.
Proof.
  unfold reply_field. destruct r as [response|]; [|discriminate].
  destruct (json response) as [[]|] eqn:E; try discriminate.
  intros H. eauto.
Qed.

Lemma eq_str_true v s : eq_str v s = true <-> v = PyStr s.
Proof.
  destruct v; simpl; split; try discriminate; intros H.
  - apply String.eqb_eq in H. congruence.
  - injection H as ->. apply String.eqb_refl.
Qed.

(** A poll whose status is not terminal costs one round and leaves the
    loop where it was, one attempt later. *)
Lemma poll_while_round attempt :
  attempt < max_attempts ->
  non_terminal (poll_reply remote u attempt) = true ->
  poll_while g remote u attempt =
  (fst (poll_while g remote u (attempt + 1)),
   (round g u ++ snd (poll_while g remote u (attempt + 1)))%list).
Proof.
  intros Hlt Hnt. rewrite poll_while_unfold.
  apply Nat.ltb_lt in Hlt. rewrite Hlt.
  unfold non_terminal in Hnt.
  destruct (reply_field _ "status") as [status|] eqn:Hs; [|discriminate].
  apply reply_field_inv in Hs as (response & d & Hr & Hj & Hd).
  apply andb_true_iff in Hnt as [Hc He].
  apply negb_true_iff in Hc, He.
  rewrite Hr. cbn. rewrite Hj. cbn. rewrite Hd. cbn. rewrite Hc, He.
  destruct (poll_while g remote u (attempt + 1)) as [r t]. reflexivity.
Qed.

(** [n] non-terminal polls in a row cost [n] rounds. *)
Lemma poll_while_rounds n : forall attempt,
  attempt + n <= max_attempts ->
  (forall j, attempt <= j < attempt + n ->
             non_terminal (poll_reply remote u j) = true) ->
  poll_while g remote u attempt =
  (fst (poll_while g remote u (attempt + n)),
   (rounds g u n ++ snd (poll_while g remote u (attempt + n)))%list).
Proof.
  induction n as [|n IH]; intros attempt Hle Hnt.
  - rewrite Nat.add_0_r. cbn. by destruct (poll_while g remote u attempt).
  - rewrite poll_while_round by (try apply Hnt; lia).
    rewrite (IH (attempt + 1)) by (try (intros j Hj; apply Hnt); lia).
    replace (attempt + 1 + n) with (attempt + S n) by lia.
    reflexivity.
Qed.

Lemma poll_while_completed attempt text :
  attempt < max_attempts ->
  reply_field (poll_reply remote u attempt) "status" = Some (PyStr "completed") ->
  reply_field (poll_reply remote u attempt) "text" = Some text ->
  poll_while g remote u attempt =
  (Returned (payload_of "text" text), [Get u (auth_headers g)]).
Proof.
  intros Hlt Hs Ht. rewrite poll_while_unfold.
  apply Nat.ltb_lt in Hlt. rewrite Hlt.
  apply reply_field_inv in Hs as (response & d & Hr & Hj & Hd).
  unfold reply_field in Ht. rewrite Hr, Hj in Ht.
  rewrite Hr. cbn. rewrite Hj. cbn. rewrite Hd. cbn. rewrite Ht. reflexivity.
Qed.

Lemma poll_while_error attempt :
  attempt < max_attempts ->
  reply_field (poll_reply remote u attempt) "status" = Some (PyStr "error") ->
  poll_while g remote u attempt =
  (Returned (payload_of "error"
               (default (PyStr "Transcription failed")
                        (reply_field (poll_reply remote u attempt) "error"))),
   [Get u (auth_headers g)]).
Proof.
  intros Hlt Hs. rewrite poll_while_unfold.
  apply Nat.ltb_lt in Hlt. rewrite Hlt.
  apply reply_field_inv in Hs as (response & d & Hr & Hj & Hd).
  unfold reply_field. rewrite Hr. cbn. rewrite Hj. cbn. rewrite Hd. reflexivity.
Qed.

Lemma poll_while_exhausted :
  poll_while g remote u max_attempts =
  (Returned (payload_of "error" (PyStr "Transcription timeout")), []).
Proof. rewrite poll_while_unfold. reflexivity. Qed.

Lemma count_app p (t t' : list event) :
  count p (t ++ t') = count p t + count p t'.
Proof. unfold count. by rewrite List.filter_app, length_app. Qed.

Lemma count_rounds_poll n : count is_poll (rounds g u n) = n.
Proof.
  induction n as [|n IH]; [reflexivity|].
  unfold rounds. rewrite replicate_S. cbn [concat].
  rewrite count_app. fold (rounds g u n). rewrite IH. reflexivity.
Qed.

Lemma count_rounds_sleep n : count is_sleep (rounds g u n) = n.
Proof.
  induction n as [|n IH]; [reflexivity|].
  unfold rounds. rewrite replicate_S. cbn [concat].
  rewrite count_app. fold (rounds g u n). rewrite IH. reflexivity.
Qed.

End PollingLoop.

(** ** The handler around the loop *)

Lemma speech_to_text_reaches_loop g remote audio_bytes audio_url transcript_id :
  reaches_polling g remote audio_bytes audio_url transcript_id ->
  speech_to_text_body g remote =
  (fst (poll_while g remote (polling_url transcript_id) 0),
   (setup_trace g audio_bytes audio_url
      ++ snd (poll_while g remote (polling_url transcript_id) 0))%list).
Proof.
  intros (Hread & upload & uj & treq & tj & Hup & Hs1 & Hj1 & Hu & Htr & Hs2 & Hj2 & Hid).
  unfold speech_to_text_body. rewrite Hread. cbn.
  fold (upload_headers g). rewrite Hup. cbn. rewrite Hs1. cbn.
  rewrite Hj1. cbn. rewrite Hu. cbn. rewrite Htr. cbn. rewrite Hs2. cbn.
  rewrite Hj2. cbn. rewrite Hid. cbn.
  by destruct (poll_while g remote (polling_url transcript_id) 0).
Qed.

Lemma speech_to_text_returned g remote v t :
  speech_to_text_body g remote = (Returned v, t) ->
  speech_to_text g remote = (Returned v, t).
Proof. unfold speech_to_text. by intros ->. Qed.

Lemma demo_reaches_polling polls :
  reaches_polling Demo.globals (Demo.remote_with polls)
    Demo.audio Demo.audio_url Demo.job.
Proof.
  split; [reflexivity|].
  exists (Demo.ok_json (payload_of "upload_url" Demo.audio_url)),
         (payload_of "upload_url" Demo.audio_url),
         (Demo.ok_json (payload_of "id" Demo.job)),
         (payload_of "id" Demo.job).
  repeat split; reflexivity.
Defined.

(** ** The claims about [/stt] *)

(** C1. When the poll of attempt [k] (with [k <= 60], all earlier polls
    being non-terminal) answers status ["completed"], the handler
    returns [{"text": text}] with the text of that very reply, and the
    [k]-th poll is the last call it makes: the trace holds exactly [k]
    polls. *)
Theorem stt_completed_on_attempt_k
    g remote audio_bytes audio_url transcript_id k text :
  let u := polling_url transcript_id in
  reaches_polling g remote audio_bytes audio_url transcript_id ->
  1 <= k <= max_attempts ->
  (forall j, j < k - 1 -> non_terminal (poll_reply remote u j) = true) ->
  reply_field (poll_reply remote u (k - 1)) "status" = Some (PyStr "completed") ->
  reply_field (poll_reply remote u (k - 1)) "text" = Some text ->
  speech_to_text g remote =
    (Returned (payload_of "text" text),
     (setup_trace g audio_bytes audio_url
        ++ rounds g u (k - 1) ++ [Get u (auth_headers g)])%list)
  /\ count is_poll (snd (speech_to_text g remote)) = k.
Proof.
  intros u Hreach Hk Hpending Hstatus Htext.
  assert (Hrun : speech_to_text g remote =
    (Returned (payload_of "text" text),
     (setup_trace g audio_bytes audio_url
        ++ rounds g u (k - 1) ++ [Get u (auth_headers g)])%list)).
  { apply speech_to_text_returned.
    rewrite (speech_to_text_reaches_loop _ _ _ _ _ Hreach). fold u.
    rewrite (poll_while_rounds g remote u (k - 1) 0)
      by (try (intros j Hj; apply Hpending); lia).
    cbn [Nat.add].
    rewrite (poll_while_completed g remote u (k - 1) text) by (trivial; lia).
    reflexivity. }
  split; [exact Hrun|].
  rewrite Hrun. cbn [snd].
  rewrite !count_app, count_rounds_poll. cbn. lia.
Qed.

Lemma stt_completed_on_attempt_k_witness :
  speech_to_text Demo.globals (Demo.remote_with Demo.completes_on_third) =
    (Returned (payload_of "text" (PyStr "hello world")),
     (setup_trace Demo.globals Demo.audio Demo.audio_url
        ++ rounds Demo.globals (polling_url Demo.job) 2
        ++ [Get (polling_url Demo.job) (auth_headers Demo.globals)])%list)
  /\ count is_poll
       (snd (speech_to_text Demo.globals (Demo.remote_with Demo.completes_on_third)))
     = 3.
Proof.
  apply (stt_completed_on_attempt_k Demo.globals
           (Demo.remote_with Demo.completes_on_third)
           Demo.audio Demo.audio_url Demo.job 3 (PyStr "hello world")).
  - apply demo_reaches_polling.
  - unfold max_attempts. lia.
  - intros j Hj. destruct j as [|[|j]]; [reflexivity|reflexivity|simpl in Hj; lia].
  - reflexivity.
  - reflexivity.
Defined.

(** A run in which none of the 60 polls is terminal: the loop makes 60
    rounds and the handler answers with the timeout payload. *)
Lemma stt_timeout_run g remote audio_bytes audio_url transcript_id :
  let u := polling_url transcript_id in
  reaches_polling g remote audio_bytes audio_url transcript_id ->
  (forall j, j < max_attempts -> non_terminal (poll_reply remote u j) = true) ->
  speech_to_text g remote =
    (Returned (payload_of "error" (PyStr "Transcription timeout")),
     (setup_trace g audio_bytes audio_url ++ rounds g u max_attempts)%list).
Proof.
  intros u Hreach Hpending.
  apply speech_to_text_returned.
  rewrite (speech_to_text_reaches_loop _ _ _ _ _ Hreach). fold u.
  rewrite (poll_while_rounds g remote u max_attempts 0)
    by (try (intros j Hj; apply Hpending); lia).
  cbn [Nat.add]. rewrite poll_while_exhausted. cbn [fst snd].
  by rewrite app_nil_r.
Qed.

(** C2. When none of the polls of attempts 1 to 60 has a terminal status
    (each answers with a status that is neither ["completed"] nor
    ["error"]), the handler returns [{"error": "Transcription timeout"}]
    and its trace holds exactly 60 polls. *)
Theorem stt_timeout_after_60_attempts
    g remote audio_bytes audio_url transcript_id :
  let u := polling_url transcript_id in
  reaches_polling g remote audio_bytes audio_url transcript_id ->
  (forall j, j < 60 -> non_terminal (poll_reply remote u j) = true) ->
  fst (speech_to_text g remote) =
    Returned (payload_of "error" (PyStr "Transcription timeout"))
  /\ count is_poll (snd (speech_to_text g remote)) = 60.
Proof.
  intros u Hreach Hpending.
  rewrite (stt_timeout_run _ _ _ _ _ Hreach Hpending). fold u.
  split; [reflexivity|].
  cbn [snd]. rewrite count_app, count_rounds_poll. reflexivity.
Qed.

Lemma stt_timeout_after_60_attempts_witness :
  fst (speech_to_text Demo.globals (Demo.remote_with Demo.never_finishes)) =
    Returned (payload_of "error" (PyStr "Transcription timeout"))
  /\ count is_poll
       (snd (speech_to_text Demo.globals (Demo.remote_with Demo.never_finishes)))
     = 60.
Proof.
  apply (stt_timeout_after_60_attempts Demo.globals
           (Demo.remote_with Demo.never_finishes)
           Demo.audio Demo.audio_url Demo.job).
  - apply demo_reaches_polling.
  - intros j Hj. reflexivity.
Defined.

(** C3, as the code has it.  When the poll of attempt [k] (all earlier
    polls being non-terminal) answers status ["error"], the handler
    returns [{"error": m}] where [m] is the value of the ["error"] field
    of that reply, whatever that value is ([null] included), or
    ["Transcription failed"] when the reply has no such field, and the
    [k]-th poll is the last call it makes. *)
Theorem stt_error_on_attempt_k
    g remote audio_bytes audio_url transcript_id k :
  let u := polling_url transcript_id in
  reaches_polling g remote audio_bytes audio_url transcript_id ->
  1 <= k <= max_attempts ->
  (forall j, j < k - 1 -> non_terminal (poll_reply remote u j) = true) ->
  reply_field (poll_reply remote u (k - 1)) "status" = Some (PyStr "error") ->
  speech_to_text g remote =
    (Returned
       (payload_of "error"
          match reply_field (poll_reply remote u (k - 1)) "error" with
          | Some message => message
          | None => PyStr "Transcription failed"
          end),
     (setup_trace g audio_bytes audio_url
        ++ rounds g u (k - 1) ++ [Get u (auth_headers g)])%list)
  /\ count is_poll (snd (speech_to_text g remote)) = k.
Proof.
  intros u Hreach Hk Hpending Hstatus.
  match goal with |- ?run = ?res /\ _ => assert (Hrun : run = res) end.
  { apply speech_to_text_returned.
    rewrite (speech_to_text_reaches_loop _ _ _ _ _ Hreach). fold u.
    rewrite (poll_while_rounds g remote u (k - 1) 0)
      by (try (intros j Hj; apply Hpending); lia).
    cbn [Nat.add].
    rewrite (poll_while_error g remote u (k - 1)) by (trivial; lia).
    reflexivity. }
  split; [exact Hrun|].
  rewrite Hrun. cbn [snd].
  rewrite !count_app, count_rounds_poll. cbn. lia.
Qed.

Lemma stt_error_on_attempt_k_witness :
  speech_to_text Demo.globals (Demo.remote_with Demo.fails_on_second) =
    (Returned (payload_of "error" (PyStr "Transcription failed")),
     (setup_trace Demo.globals Demo.audio Demo.audio_url
        ++ rounds Demo.globals (polling_url Demo.job) 1
        ++ [Get (polling_url Demo.job) (auth_headers Demo.globals)])%list)
  /\ count is_poll
       (snd (speech_to_text Demo.globals (Demo.remote_with Demo.fails_on_second)))
     = 2.
Proof.
  apply (stt_error_on_attempt_k Demo.globals
           (Demo.remote_with Demo.fails_on_second)
           Demo.audio Demo.audio_url Demo.job 2).
  - apply demo_reaches_polling.
  - unfold max_attempts. lia.
  - intros j Hj. destruct j as [|j]; [reflexivity|simpl in Hj; lia].
  - reflexivity.
Defined.

(** C3 as stated does not hold: a reply with status ["error"] whose
    ["error"] field is [null] supplies no message, and the handler
    answers [{"error": None}], not the fallback message. *)
Lemma stt_null_error_is_not_replaced_by_fallback :
  let remote := Demo.remote_with Demo2.null_error_on_second in
  let reply := poll_reply remote (polling_url Demo.job) 1 in
  reply_field reply "status" = Some (PyStr "error")
  /\ reply_field reply "error" = Some PyNone
  /\ fst (speech_to_text Demo.globals remote)
     = Returned (payload_of "error" PyNone)
  /\ fst (speech_to_text Demo.globals remote)
     <> Returned (payload_of "error" (PyStr "Transcription failed")).
Proof.
  cbv zeta.
  assert (Hrun : fst (speech_to_text Demo.globals
                        (Demo.remote_with Demo2.null_error_on_second))
                 = Returned (payload_of "error" PyNone)) by reflexivity.
  repeat split; try reflexivity.
  rewrite Hrun. intros H.
  apply (f_equal (fun r : outcome pyval =>
                    match r with
                    | Returned (PyDict d) => d !! "error"
                    | _ => None
                    end)) in H.
  unfold payload_of in H. rewrite !lookup_singleton_eq in H. discriminate.
Qed.

(** C4. When the upload call returns with a status code other than 200,
    the handler returns [{"error": "Failed to upload audio"}]; the upload
    is the last call it makes, so its trace holds no submission and no
    poll. *)
Theorem stt_upload_failure g remote audio_bytes upload :
  file_read remote = Returned audio_bytes ->
  upload_reply remote (upload_headers g) audio_bytes = Returned upload ->
  status_code upload <> 200%Z ->
  speech_to_text g remote =
    (Returned (payload_of "error" (PyStr "Failed to upload audio")),
     [FileRead; Post upload_url (upload_headers g) (Data audio_bytes)])
  /\ count is_submission (snd (speech_to_text g remote)) = 0
  /\ count is_poll (snd (speech_to_text g remote)) = 0.
Proof.
  intros Hread Hup Hcode.
  match goal with |- ?run = ?res /\ _ => assert (Hrun : run = res) end.
  { apply speech_to_text_returned. unfold speech_to_text_body.
    rewrite Hread. cbn. fold (upload_headers g). rewrite Hup. cbn.
    apply Z.eqb_neq in Hcode. rewrite Hcode. reflexivity. }
  rewrite Hrun. repeat split.
Qed.

Lemma stt_upload_failure_witness :
  speech_to_text Demo.globals Demo.rejects_upload =
    (Returned (payload_of "error" (PyStr "Failed to upload audio")),
     [FileRead; Post upload_url (upload_headers Demo.globals) (Data Demo.audio)])
  /\ count is_submission (snd (speech_to_text Demo.globals Demo.rejects_upload)) = 0
  /\ count is_poll (snd (speech_to_text Demo.globals Demo.rejects_upload)) = 0.
Proof.
  apply (stt_upload_failure Demo.globals Demo.rejects_upload Demo.audio
           {| status_code := 500; json := Returned PyNone |}).
  - reflexivity.
  - reflexivity.
  - simpl. lia.
Defined.

(** C10. In a run that uses up the 60 attempts without a terminal status,
    the trace after the submission is 60 times a poll followed by a
    one-second sleep: the handler sleeps exactly 60 times, and the last
    thing it does before returning the timeout payload is the sleep that
    follows the 60th poll. *)
Theorem stt_timeout_sleeps_60_times
    g remote audio_bytes audio_url transcript_id :
  let u := polling_url transcript_id in
  reaches_polling g remote audio_bytes audio_url transcript_id ->
  (forall j, j < 60 -> non_terminal (poll_reply remote u j) = true) ->
  speech_to_text g remote =
    (Returned (payload_of "error" (PyStr "Transcription timeout")),
     (setup_trace g audio_bytes audio_url
        ++ concat (replicate 60 [Get u (auth_headers g); Sleep 1]))%list)
  /\ count is_sleep (snd (speech_to_text g remote)) = 60
  /\ last (snd (speech_to_text g remote)) = Some (Sleep 1).
Proof.
  intros u Hreach Hpending.
  rewrite (stt_timeout_run _ _ _ _ _ Hreach Hpending). fold u.
  split; [reflexivity|]. cbn [snd]. split.
  - rewrite count_app, count_rounds_sleep. reflexivity.
  - reflexivity.
Qed.

Lemma stt_timeout_sleeps_60_times_witness :
  let run := speech_to_text Demo.globals (Demo.remote_with Demo.never_finishes) in
  run =
    (Returned (payload_of "error" (PyStr "Transcription timeout")),
     (setup_trace Demo.globals Demo.audio Demo.audio_url
        ++ concat (replicate 60 [Get (polling_url Demo.job) (auth_headers Demo.globals);
                                 Sleep 1]))%list)
  /\ count is_sleep (snd run) = 60
  /\ last (snd run) = Some (Sleep 1).
Proof.
  apply (stt_timeout_sleeps_60_times Demo.globals
           (Demo.remote_with Demo.never_finishes)
           Demo.audio Demo.audio_url Demo.job).
  - apply demo_reaches_polling.
  - intros j Hj. reflexivity.
Defined.

(** ** The claims about start-up and [/health] *)

Lemma truthy_false v : truthy v = false <-> v = None \/ v = Some "".
Proof.
  destruct v as [s|]; simpl.
  - rewrite negb_false_iff, String.eqb_eq. split.
    + intros ->. by right.
    + intros [H|H]; congruence.
  - split; auto.
Qed.

Lemma truthy_true v : truthy v = true <-> exists s, v = Some s /\ s <> "".
Proof.
  destruct v as [s|]; simpl.
  - rewrite negb_true_iff, String.eqb_neq. split.
    + intros H. eauto.
    + intros (s' & [= ->] & H). exact H.
  - split; [discriminate|]. intros (s & H & _). discriminate.
Qed.

(** C5, as the code has it.  A credential that is absent or set to the
    empty string makes the module body raise [ValueError] at the
    validation, whatever the host would do later, so no application
    object and no route exist; when both credentials are present and
    non-empty the validation passes, and the module body then yields the
    application with its five routes as soon as the later steps
    succeed. *)
Theorem startup_requires_nonempty_credentials host dotenv environ :
  let env := load_dotenv dotenv environ in
  let groq := getenv env "GROQ_API_KEY" in
  let assemblyai := getenv env "ASSEMBLYAI_API_KEY" in
  ((groq = None \/ groq = Some "" \/ assemblyai = None \/ assemblyai = Some "") ->
   exists e, exc_cls e = ValueError
             /\ load_credentials env = Raised e
             /\ module_init host dotenv environ = Raised e)
  /\
  ((exists s, groq = Some s /\ s <> "") ->
   (exists s, assemblyai = Some s /\ s <> "") ->
   let g := {| GROQ_API_KEY := groq; ASSEMBLYAI_API_KEY := assemblyai |} in
   load_credentials env = Returned g
   /\ (groq_client_new host groq = Returned tt ->
       temp_dir_mkdir host = Returned tt ->
       module_init host dotenv environ =
         Returned {| app_globals := g; app_routes := routes |})).
Proof.
  intros env groq assemblyai. split.
  - intros Hmissing.
    assert (Hf : truthy groq = false \/ truthy assemblyai = false).
    { rewrite !truthy_false. tauto. }
    unfold module_init, load_credentials. fold env groq assemblyai.
    destruct (truthy groq) eqn:Eg; cbn.
    + destruct Hf as [Hf|Hf]; [discriminate|]. rewrite Hf. cbn.
      eexists. split; [|split; reflexivity]. reflexivity.
    + eexists. split; [|split; reflexivity]. reflexivity.
  - intros Hg Ha. apply truthy_true in Hg, Ha.
    unfold module_init, load_credentials. fold env groq assemblyai.
    rewrite Hg, Ha. cbn. split; [reflexivity|].
    intros -> ->. reflexivity.
Qed.

Lemma startup_requires_nonempty_credentials_witness :
  (exists e, exc_cls e = ValueError
             /\ load_credentials (load_dotenv ∅ Demo.environ_no_groq) = Raised e
             /\ module_init Demo.host ∅ Demo.environ_no_groq = Raised e)
  /\ module_init Demo.host ∅ Demo.environ =
       Returned {| app_globals := Demo.globals; app_routes := routes |}.
Proof.
  split.
  - apply (startup_requires_nonempty_credentials Demo.host ∅ Demo.environ_no_groq).
    left. reflexivity.
  - refine (proj2 (proj2 (startup_requires_nonempty_credentials
                             Demo.host ∅ Demo.environ) _ _) eq_refl eq_refl).
    + exists "gsk_demo". split; [reflexivity|discriminate].
    + exists "aai_demo". split; [reflexivity|discriminate].
Defined.

(** C5 as stated does not hold: with [GROQ_API_KEY] present in the
    environment but empty, both credentials are present and the
    validation raises all the same. *)
Lemma present_but_empty_credential_fails_startup :
  is_Some (getenv (load_dotenv ∅ Demo.environ_empty_key) "GROQ_API_KEY")
  /\ is_Some (getenv (load_dotenv ∅ Demo.environ_empty_key) "ASSEMBLYAI_API_KEY")
  /\ load_credentials (load_dotenv ∅ Demo.environ_empty_key) =
       Raised (PyExc ValueError "GROQ_API_KEY not found in .env")
  /\ module_init Demo.host ∅ Demo.environ_empty_key =
       Raised (PyExc ValueError "GROQ_API_KEY not found in .env").
Proof.
  repeat split; try reflexivity; eexists; reflexivity.
Qed.

(** C9. On a process whose module body ran to the end, both globals hold
    a non-empty string, and [/health] answers ["healthy"] with both
    flags [True]. *)
Theorem health_flags_true_on_running_process host dotenv environ app :
  module_init host dotenv environ = Returned app ->
  health (app_globals app) =
    PyDict {[ "status" := PyStr "healthy";
              "groq_configured" := PyBool true;
              "assemblyai_configured" := PyBool true ]}
  /\ (exists s, GROQ_API_KEY (app_globals app) = Some s /\ s <> "")
  /\ (exists s, ASSEMBLYAI_API_KEY (app_globals app) = Some s /\ s <> "").
Proof.
  unfold module_init, load_credentials.
  set (env := load_dotenv dotenv environ).
  destruct (truthy (getenv env "GROQ_API_KEY")) eqn:Eg; cbn; [|discriminate].
  destruct (truthy (getenv env "ASSEMBLYAI_API_KEY")) eqn:Ea; cbn; [|discriminate].
  destruct (groq_client_new host _); [|discriminate].
  destruct (temp_dir_mkdir host); [|discriminate].
  intros [= <-]. cbn. unfold health. cbn. rewrite Eg, Ea.
  split; [reflexivity|]. split; by apply truthy_true.
Qed.

Lemma health_flags_true_on_running_process_witness :
  health Demo.globals =
    PyDict {[ "status" := PyStr "healthy";
              "groq_configured" := PyBool true;
              "assemblyai_configured" := PyBool true ]}
  /\ (exists s, Some "gsk_demo" = Some s /\ s <> "")
  /\ (exists s, Some "aai_demo" = Some s /\ s <> "").
Proof.
  apply (health_flags_true_on_running_process Demo.host ∅ Demo.environ
           {| app_globals := Demo.globals; app_routes := routes |}).
  reflexivity.
Defined.

(** ** The claim about [/chat] *)

(** C6. Whatever failure of class [Exception] comes up while the
    completion is obtained - the call raising, or the returned object
    lacking [choices[0].message.content] - the handler returns
    [{"response": "Error: " + str(e)}] after its single call; it does not
    raise. *)
Theorem chat_failure_is_reported groq_client user_message e :
  completion_fails groq_client user_message e ->
  isinstance_Exception e = true ->
  chat groq_client user_message =
    (Returned (payload_of "response" (PyStr ("Error: " +:+ str e))),
     [request_for user_message]).
Proof.
  intros Hfail Hexc. unfold chat.
  destruct Hfail as [e Hc | c e Hc Hf | c ch e Hc Hf Hm];
    rewrite Hc; cbn; rewrite ?Hf; cbn; rewrite ?Hm; cbn; rewrite Hexc;
    reflexivity.
Qed.

Lemma chat_failure_is_reported_witness :
  chat Demo.unreachable "Hello" =
    (Returned (payload_of "response" (PyStr "Error: Connection error.")),
     [request_for "Hello"]).
Proof.
  apply (chat_failure_is_reported Demo.unreachable "Hello" Demo.connection_error).
  - apply call_raises. reflexivity.
  - reflexivity.
Defined.

(** ** The claim about [/tts] *)

(** C7. When the synthesis succeeds, the audio is written in the temp
    directory under the name made of the identifier drawn for this
    request followed by [.mp3] (the draw is used up, the other entries of
    the directory are untouched); the response is that file, with media
    type [audio/mpeg], download name [speech.mp3] and no background task,
    so the file is still there once the response has been sent. *)
Theorem tts_success_keeps_uniquely_named_file host text w done audio :
  gTTS host text "en" = Returned done ->
  save host text = Saved audio ->
  let name := uuid4 host (draws w) +:+ ".mp3" in
  let response := FileBody {| path := path_join TEMP_DIR name;
                              media_type := "audio/mpeg";
                              filename := "speech.mp3";
                              background := None |} in
  let w' := snd (text_to_speech host text w) in
  fst (text_to_speech host text w) = Returned response
  /\ temp_dir w' = <[ name := audio ]> (temp_dir w)
  /\ draws w' = S (draws w)
  /\ temp_dir (after_send response w') !! name = Some audio.
Proof.
  intros Hnew Hsave name response w'.
  unfold w', text_to_speech. rewrite Hnew, Hsave. cbn.
  repeat split. apply lookup_insert_eq.
Qed.

Lemma tts_success_keeps_uniquely_named_file_witness :
  let run := text_to_speech Demo.tts_host "Hello" Demo.empty_world in
  let response := FileBody {| path := "temp_audio/id-0.mp3";
                              media_type := "audio/mpeg";
                              filename := "speech.mp3";
                              background := None |} in
  fst run = Returned response
  /\ temp_dir (snd run) = <[ "id-0.mp3" := Demo.audio ]> ∅
  /\ draws (snd run) = 1
  /\ temp_dir (after_send response (snd run)) !! "id-0.mp3" = Some Demo.audio.
Proof.
  apply (tts_success_keeps_uniquely_named_file
           Demo.tts_host "Hello" Demo.empty_world tt Demo.audio).
  - reflexivity.
  - reflexivity.
Defined.

(** ** The claim about the startup cleanup *)

Section Sweep.
Variable unlink : string -> option pyexc.

(** The fate of an entry depends on its own [unlink] only. *)
Lemma foldl_unlink_lookup (names : list string) :
  forall (dir : gmap string (list Byte.byte)) (name : string),
    foldl (unlink_one unlink) dir names !! name =
    match unlink name with
    | None => if bool_decide (name ∈ names) then None else dir !! name
    | Some _ => dir !! name
    end.
Proof.
  induction names as [|a names IH]; intros dir name; cbn [foldl].
  - rewrite bool_decide_eq_false_2 by apply not_elem_of_nil.
    by destruct (unlink name).
  - rewrite IH. unfold unlink_one.
    destruct (decide (name = a)) as [->|Hne].
    + destruct (unlink a) eqn:Ea; [reflexivity|].
      rewrite lookup_delete_eq.
      rewrite (bool_decide_eq_true_2 (a ∈ a :: names)) by apply list_elem_of_here.
      by destruct (bool_decide (a ∈ names)).
    + assert (Hdir : (match unlink a with
                      | None => delete a dir
                      | Some _ => dir
                      end) !! name = dir !! name).
      { destruct (unlink a); [reflexivity|]. by apply lookup_delete_ne. }
      rewrite Hdir.
      destruct (unlink name); [reflexivity|].
      destruct (decide (name ∈ names)) as [Hin|Hnin].
      * rewrite !bool_decide_eq_true_2; [reflexivity| |assumption].
        by apply list_elem_of_further.
      * rewrite !bool_decide_eq_false_2; [reflexivity| |assumption].
        rewrite not_elem_of_cons. by split.
Qed.

Lemma elem_of_glob_mp3 (dir : gmap string (list Byte.byte)) (name : string) :
  name ∈ glob_mp3 dir <-> matches_mp3 name = true /\ is_Some (dir !! name).
Proof.
  unfold glob_mp3.
  by rewrite list_elem_of_filter, elem_of_elements, elem_of_dom.
Qed.

End Sweep.

(** C8. The startup cleanup never raises and reports nothing.  An entry
    of the temp directory is gone afterwards exactly when it matches
    [*.mp3] and its own deletion went through: a deletion that fails
    leaves that entry and has no effect on the others.  Hence, from a
    directory that holds generated [.mp3] files only, however many, and
    with deletions that succeed, the directory is left with 0 files. *)
Theorem cleanup_leaves_no_mp3 unlink (dir : gmap string (list Byte.byte)) :
  let result := cleanup_old_files unlink dir in
  fst result = Returned tt
  /\ (forall name,
        snd result !! name =
        match unlink name with
        | None => if matches_mp3 name then None else dir !! name
        | Some _ => dir !! name
        end)
  /\ ((forall name, is_Some (dir !! name) -> matches_mp3 name = true) ->
      (forall name, is_Some (dir !! name) -> unlink name = None) ->
      size (snd result) = 0).
Proof.
  intros result.
  assert (Hlookup : forall name,
        snd result !! name =
        match unlink name with
        | None => if matches_mp3 name then None else dir !! name
        | Some _ => dir !! name
        end).
  { intros name. unfold result, cleanup_old_files. cbn [snd].
    rewrite foldl_unlink_lookup.
    destruct (unlink name); [reflexivity|].
    destruct (decide (name ∈ glob_mp3 dir)) as [Hin|Hnin].
    - rewrite bool_decide_eq_true_2 by assumption.
      apply elem_of_glob_mp3 in Hin as [-> _]. reflexivity.
    - rewrite bool_decide_eq_false_2 by assumption.
      destruct (matches_mp3 name) eqn:Em; [|reflexivity].
      destruct (dir !! name) eqn:Ed; [|reflexivity].
      exfalso. apply Hnin, elem_of_glob_mp3. split; [assumption|].
      rewrite Ed. by eexists. }
  split; [reflexivity|]. split; [exact Hlookup|].
  intros Hmp3 Hok. apply map_size_empty_iff, map_empty. intros name.
  rewrite Hlookup.
  destruct (dir !! name) eqn:Ed.
  - assert (Hsome : is_Some (dir !! name)) by (rewrite Ed; by eexists).
    rewrite (Hok name Hsome), (Hmp3 name Hsome). reflexivity.
  - by destruct (unlink name), (matches_mp3 name).
Qed.

Lemma cleanup_leaves_no_mp3_witness :
  size (snd (cleanup_old_files Demo.unlink_ok Demo.two_files)) = 0.
Proof.
  apply (cleanup_leaves_no_mp3 Demo.unlink_ok Demo.two_files).
  - intros name [x Hx]. unfold Demo.two_files in Hx.
    apply lookup_insert_Some in Hx as [[<- _]|[_ Hx]]; [reflexivity|].
    apply lookup_singleton_Some in Hx as [<- _]. reflexivity.
  - intros name _. reflexivity.
Defined.

(** * Further properties *)

(** ** The shape of every [/stt] run *)

Section LoopShape.
Variable g : Globals.
Variable remote : Remote.
Variable u : url.

(** Whatever the remote answers, the loop entered at [attempt] makes a
    number of full rounds and then either stops on a poll or runs out of
    attempts; what it returns is a [text] or an [error] body. *)
Lemma poll_while_shape d : forall attempt,
  attempt + d = max_attempts ->
  exists n,
    n <= d
    /\ (snd (poll_while g remote u attempt) = rounds g u n
        \/ n < d /\ snd (poll_while g remote u attempt)
                    = (rounds g u n ++ [Get u (auth_headers g)])%list)
    /\ (forall v, fst (poll_while g remote u attempt) = Returned v ->
                  stt_payload v).
Proof.
  induction d as [|d IH]; intros attempt Hd.
  - exists 0. split; [lia|]. rewrite poll_while_unfold.
    replace (attempt <? max_attempts)%nat with false
      by (symmetry; apply Nat.ltb_ge; lia).
    cbn. split; [by left|]. intros v [= <-]. right. by eexists.
  - assert (Hlt : attempt < max_attempts) by lia.
    destruct (non_terminal (poll_reply remote u attempt)) eqn:Hnt.
    + rewrite (poll_while_round g remote u attempt Hlt Hnt). cbn [fst snd].
      destruct (IH (attempt + 1)) as (n & Hn & Ht & Hv); [lia|].
      exists (S n). split; [lia|]. split; [|exact Hv].
      destruct Ht as [-> | [Hn' ->]]; [by left|].
      right. split; [lia|]. reflexivity.
    + exists 0. split; [lia|].
      rewrite poll_while_unfold. apply Nat.ltb_lt in Hlt. rewrite Hlt.
      unfold non_terminal, reply_field in Hnt.
      destruct (poll_reply remote u attempt) as [response|e]; cbn;
        [|split; [right; split; [lia|reflexivity]|discriminate]].
      destruct (json response) as [polling|e]; cbn;
        [|split; [right; split; [lia|reflexivity]|discriminate]].
      destruct (getitem polling "status") as [status|e] eqn:Hs; cbn;
        [|split; [right; split; [lia|reflexivity]|discriminate]].
      destruct (eq_str status "completed") eqn:Hc.
      { destruct (getitem polling "text") as [text|e]; cbn;
          (split; [right; split; [lia|reflexivity]|]); [|discriminate].
        intros v [= <-]. left. by eexists. }
      cbn. destruct (eq_str status "error") eqn:He.
      { destruct (get polling "error" (PyStr "Transcription failed"))
          as [message|e]; cbn;
          (split; [right; split; [lia|reflexivity]|]); [|discriminate].
        intros v [= <-]. right. by eexists. }
      exfalso. destruct polling; try discriminate Hs.
      cbn in Hs. destruct (d0 !! "status") as [x|] eqn:Hx; [|discriminate].
      injection Hs as ->. rewrite Hc, He in Hnt. discriminate.
Qed.

Lemma Forall_rounds (P : event -> Prop) n :
  P (Get u (auth_headers g)) -> P (Sleep 1) -> Forall P (rounds g u n).
Proof.
  intros HG HS. induction n as [|n IH]; [constructor|].
  unfold rounds. rewrite replicate_S. cbn [concat].
  repeat constructor; assumption.
Qed.

End LoopShape.

(** The body of the handler either stops before the loop, with a trace
    that is a prefix of the three set-up calls, or it enters the loop. *)
Lemma speech_to_text_body_cases g remote :
  (exists audio_bytes audio_url,
      snd (speech_to_text_body g remote)
        `prefix_of` setup_trace g audio_bytes audio_url
      /\ (forall v, fst (speech_to_text_body g remote) = Returned v ->
                    has_single_key "error" v))
  \/ (exists audio_bytes audio_url transcript_id,
        reaches_polling g remote audio_bytes audio_url transcript_id).
Proof.
  unfold speech_to_text_body, reaches_polling.
  destruct (file_read remote) as [audio_bytes|e] eqn:Hread; cbn.
  2:{ left. exists [], PyNone. split; [by eexists|discriminate]. }
  fold (upload_headers g).
  destruct (upload_reply remote (upload_headers g) audio_bytes)
    as [upload|e] eqn:Hup; cbn.
  2:{ left. exists audio_bytes, PyNone. split; [by eexists|discriminate]. }
  destruct (status_code upload =? 200)%Z eqn:Hs1; cbn.
  2:{ left. exists audio_bytes, PyNone. split; [by eexists|].
      intros v [= <-]. by eexists. }
  destruct (json upload) as [upload_json|e] eqn:Hj1; cbn.
  2:{ left. exists audio_bytes, PyNone. split; [by eexists|discriminate]. }
  destruct (getitem upload_json "upload_url") as [audio_url|e] eqn:Hu; cbn.
  2:{ left. exists audio_bytes, PyNone. split; [by eexists|discriminate]. }
  destruct (transcript_reply remote (auth_headers g) audio_url)
    as [transcript_req|e] eqn:Htr; cbn.
  2:{ left. exists audio_bytes, audio_url. split; [by eexists|discriminate]. }
  destruct (status_code transcript_req =? 200)%Z eqn:Hs2; cbn.
  2:{ left. exists audio_bytes, audio_url. split; [by eexists|].
      intros v [= <-]. by eexists. }
  destruct (json transcript_req) as [transcript_json|e] eqn:Hj2; cbn.
  2:{ left. exists audio_bytes, audio_url. split; [by eexists|discriminate]. }
  destruct (getitem transcript_json "id") as [transcript_id|e] eqn:Hid; cbn.
  2:{ left. exists audio_bytes, audio_url. split; [by eexists|discriminate]. }
  right. exists audio_bytes, audio_url, transcript_id.
  split; [reflexivity|].
  exists upload, upload_json, transcript_req, transcript_json.
  apply Z.eqb_eq in Hs1, Hs2. by repeat split.
Qed.

Lemma speech_to_text_trace g remote :
  snd (speech_to_text g remote) = snd (speech_to_text_body g remote).
Proof.
  unfold speech_to_text, try_except_Exception.
  destruct (speech_to_text_body g remote) as [[v|e] t]; [reflexivity|].
  destruct (isinstance_Exception e); cbn; [apply app_nil_r|reflexivity].
Qed.

Lemma speech_to_text_outcome g remote :
  fst (speech_to_text g remote) =
  match fst (speech_to_text_body g remote) with
  | Returned v => Returned v
  | Raised e =>
      if isinstance_Exception e
      then Returned (payload_of "error" (PyStr (str e)))
      else Raised e
  end.
Proof.
  unfold speech_to_text, try_except_Exception.
  destruct (speech_to_text_body g remote) as [[v|e] t]; [reflexivity|].
  cbn [fst]. destruct (isinstance_Exception e); reflexivity.
Qed.

Lemma count_prefix p (t t' : list event) :
  t `prefix_of` t' -> count p t <= count p t'.
Proof. intros [k ->]. rewrite count_app. lia. Qed.

(** X1. Whatever the outside answers, a [/stt] request ends in one of
    three ways: it returns [{"text": ...}], it returns [{"error": ...}],
    or it lets through an exception that is no [Exception]; no
    [Exception] ever leaves the handler. *)
Theorem stt_always_answers_text_or_error g remote :
  (exists v, fst (speech_to_text g remote) = Returned v /\ stt_payload v)
  \/ (exists e, fst (speech_to_text g remote) = Raised e
                /\ isinstance_Exception e = false).
Proof.
  rewrite speech_to_text_outcome.
  destruct (fst (speech_to_text_body g remote)) as [v|e] eqn:Hbody.
  - left. exists v. split; [reflexivity|].
    destruct (speech_to_text_body_cases g remote)
      as [(b & a & _ & Hv) | (b & a & tid & Hreach)].
    + right. by apply Hv.
    + rewrite (speech_to_text_reaches_loop _ _ _ _ _ Hreach) in Hbody.
      cbn [fst] in Hbody.
      destruct (poll_while_shape g remote (polling_url tid) max_attempts 0)
        as (n & _ & _ & Hv); [reflexivity|].
      by apply Hv.
  - destruct (isinstance_Exception e) eqn:He.
    + left. eexists. split; [reflexivity|]. right. by eexists.
    + right. by exists e.
Qed.

(** X2. Whatever the outside answers, a [/stt] request polls at most 60
    times and never sleeps more often than it polls. *)
Theorem stt_polls_at_most_60_times g remote :
  count is_poll (snd (speech_to_text g remote)) <= 60
  /\ count is_sleep (snd (speech_to_text g remote))
     <= count is_poll (snd (speech_to_text g remote)).
Proof.
  rewrite speech_to_text_trace.
  destruct (speech_to_text_body_cases g remote)
    as [(b & a & Hpre & _) | (b & a & tid & Hreach)].
  - pose proof (count_prefix is_poll _ _ Hpre) as Hp.
    pose proof (count_prefix is_sleep _ _ Hpre) as Hs.
    change (count is_poll (setup_trace g b a)) with 0 in Hp.
    change (count is_sleep (setup_trace g b a)) with 0 in Hs.
    lia.
  - rewrite (speech_to_text_reaches_loop _ _ _ _ _ Hreach). cbn [snd].
    destruct (poll_while_shape g remote (polling_url tid) max_attempts 0)
      as (n & Hn & Ht & _); [reflexivity|].
    unfold max_attempts in Hn.
    destruct Ht as [-> | [Hn' ->]];
      rewrite ?count_app, ?count_rounds_poll, ?count_rounds_sleep;
      change (count is_poll (setup_trace g b a)) with 0;
      change (count is_sleep (setup_trace g b a)) with 0;
      change (count is_poll [Get (polling_url tid) (auth_headers g)]) with 1;
      change (count is_sleep [Get (polling_url tid) (auth_headers g)]) with 0;
      unfold max_attempts in *; lia.
Qed.

Lemma Forall_prefix (P : event -> Prop) (t t' : list event) :
  t `prefix_of` t' -> Forall P t' -> Forall P t.
Proof. intros [k ->] H. by apply Forall_app in H as [H _]. Qed.

Lemma setup_trace_authenticated g audio_bytes audio_url :
  Forall (authenticated g) (setup_trace g audio_bytes audio_url).
Proof. repeat constructor. Qed.

Lemma stt_run_authenticated g remote :
  Forall (authenticated g) (snd (speech_to_text g remote)).
Proof.
  rewrite speech_to_text_trace.
  destruct (speech_to_text_body_cases g remote)
    as [(b & a & Hpre & _) | (b & a & tid & Hreach)].
  - eapply Forall_prefix; [exact Hpre|]. apply setup_trace_authenticated.
  - rewrite (speech_to_text_reaches_loop _ _ _ _ _ Hreach). cbn [snd].
    apply Forall_app. split; [apply setup_trace_authenticated|].
    destruct (poll_while_shape g remote (polling_url tid) max_attempts 0)
      as (n & _ & Ht & _); [reflexivity|].
    assert (Hr : Forall (authenticated g) (rounds g (polling_url tid) n)).
    { apply Forall_rounds; [reflexivity|exact I]. }
    destruct Ht as [-> | [_ ->]]; [exact Hr|].
    apply Forall_app. split; [exact Hr|]. repeat constructor.
Qed.

(** X3. A run submits at most one job, and it polls only after it has
    submitted one: a trace with a poll holds exactly one submission. *)
Theorem stt_submits_once_before_polling g remote :
  count is_submission (snd (speech_to_text g remote)) <= 1
  /\ (count is_poll (snd (speech_to_text g remote)) > 0 ->
      count is_submission (snd (speech_to_text g remote)) = 1).
Proof.
  rewrite speech_to_text_trace.
  destruct (speech_to_text_body_cases g remote)
    as [(b & a & Hpre & _) | (b & a & tid & Hreach)].
  - pose proof (count_prefix is_poll _ _ Hpre) as Hp.
    pose proof (count_prefix is_submission _ _ Hpre) as Hs.
    change (count is_poll (setup_trace g b a)) with 0 in Hp.
    change (count is_submission (setup_trace g b a)) with 1 in Hs. lia.
  - rewrite (speech_to_text_reaches_loop _ _ _ _ _ Hreach). cbn [snd].
    destruct (poll_while_shape g remote (polling_url tid) max_attempts 0)
      as (n & _ & Ht & _); [reflexivity|].
    assert (Hr : forall m, count is_submission (rounds g (polling_url tid) m) = 0).
    { induction m as [|m IH]; [reflexivity|].
      unfold rounds. rewrite replicate_S. cbn [concat].
      rewrite count_app. fold (rounds g (polling_url tid) m).
      rewrite IH. reflexivity. }
    destruct Ht as [-> | [_ ->]]; rewrite ?count_app, Hr;
      change (count is_submission (setup_trace g b a)) with 1;
      change (count is_submission [Get (polling_url tid) (auth_headers g)]) with 0;
      lia.
Qed.

Lemma stt_submits_once_before_polling_witness :
  count is_submission
    (snd (speech_to_text Demo.globals (Demo.remote_with Demo.fails_on_second)))
  = 1.
Proof.
  apply (stt_submits_once_before_polling Demo.globals
           (Demo.remote_with Demo.fails_on_second)).
  vm_compute. lia.
Defined.

(** X4. Once a job is submitted, every later call of the run is a poll
    of that job - the address built from the identifier the submission
    returned - or a one-second sleep. *)
Theorem stt_polls_the_submitted_job
    g remote audio_bytes audio_url transcript_id :
  reaches_polling g remote audio_bytes audio_url transcript_id ->
  exists t,
    snd (speech_to_text g remote)
      = (setup_trace g audio_bytes audio_url ++ t)%list
    /\ Forall (loop_call g (polling_url transcript_id)) t.
Proof.
  intros Hreach. rewrite speech_to_text_trace.
  rewrite (speech_to_text_reaches_loop _ _ _ _ _ Hreach). cbn [snd].
  eexists. split; [reflexivity|].
  destruct (poll_while_shape g remote (polling_url transcript_id) max_attempts 0)
    as (n & _ & Ht & _); [reflexivity|].
  assert (Hr : Forall (loop_call g (polling_url transcript_id))
                      (rounds g (polling_url transcript_id) n)).
  { apply Forall_rounds; [by left|by right]. }
  destruct Ht as [-> | [_ ->]]; [exact Hr|].
  apply Forall_app. split; [exact Hr|]. constructor; [by left|constructor].
Qed.

Lemma stt_polls_the_submitted_job_witness :
  exists t,
    snd (speech_to_text Demo.globals (Demo.remote_with Demo.fails_on_second))
      = (setup_trace Demo.globals Demo.audio Demo.audio_url ++ t)%list
    /\ Forall (loop_call Demo.globals (polling_url Demo.job)) t.
Proof.
  apply (stt_polls_the_submitted_job Demo.globals
           (Demo.remote_with Demo.fails_on_second)
           Demo.audio Demo.audio_url Demo.job).
  apply demo_reaches_polling.
Defined.

(** ** Failures on the way *)

Lemma speech_to_text_caught g remote e t :
  speech_to_text_body g remote = (Raised e, t) ->
  isinstance_Exception e = true ->
  speech_to_text g remote =
    (Returned (payload_of "error" (PyStr (str e))), t).
Proof.
  intros Hbody He. unfold speech_to_text, try_except_Exception.
  rewrite Hbody, He. cbn. by rewrite app_nil_r.
Qed.

(** A run whose first [k - 1] polls are non-terminal and whose [k]-th
    pass through the loop ends on its poll. *)
Lemma speech_to_text_stops_on_poll
    g remote audio_bytes audio_url transcript_id k r :
  let u := polling_url transcript_id in
  reaches_polling g remote audio_bytes audio_url transcript_id ->
  1 <= k <= max_attempts ->
  (forall j, j < k - 1 -> non_terminal (poll_reply remote u j) = true) ->
  poll_while g remote u (k - 1) = (r, [Get u (auth_headers g)]) ->
  speech_to_text_body g remote =
    (r, (setup_trace g audio_bytes audio_url
           ++ rounds g u (k - 1) ++ [Get u (auth_headers g)])%list).
Proof.
  intros u Hreach Hk Hpending Hlast.
  rewrite (speech_to_text_reaches_loop _ _ _ _ _ Hreach). fold u.
  rewrite (poll_while_rounds g remote u (k - 1) 0)
    by (try (intros j Hj; apply Hpending); lia).
  cbn [Nat.add]. rewrite Hlast. reflexivity.
Qed.

(** X5. When the upload is accepted and the submission call returns with
    a status code other than 200, the handler returns
    [{"error": "Failed to request transcription"}]; the submission is the
    last call it makes, so it never polls. *)
Theorem stt_submission_failure
    g remote audio_bytes upload upload_json audio_url transcript_req :
  file_read remote = Returned audio_bytes ->
  upload_reply remote (upload_headers g) audio_bytes = Returned upload ->
  status_code upload = 200%Z ->
  json upload = Returned upload_json ->
  getitem upload_json "upload_url" = Returned audio_url ->
  transcript_reply remote (auth_headers g) audio_url = Returned transcript_req ->
  status_code transcript_req <> 200%Z ->
  speech_to_text g remote =
    (Returned (payload_of "error" (PyStr "Failed to request transcription")),
     setup_trace g audio_bytes audio_url)
  /\ count is_poll (snd (speech_to_text g remote)) = 0.
Proof.
  intros Hread Hup Hs1 Hj1 Hu Htr Hs2.
  match goal with |- ?run = ?res /\ _ => assert (Hrun : run = res) end.
  { apply speech_to_text_returned. unfold speech_to_text_body.
    rewrite Hread. cbn. fold (upload_headers g). rewrite Hup. cbn.
    rewrite Hs1. cbn. rewrite Hj1. cbn. rewrite Hu. cbn. rewrite Htr. cbn.
    apply Z.eqb_neq in Hs2. rewrite Hs2. reflexivity. }
  rewrite Hrun. split; reflexivity.
Qed.

Lemma stt_submission_failure_witness :
  speech_to_text Demo.globals Demo2.rejects_submission =
    (Returned (payload_of "error" (PyStr "Failed to request transcription")),
     setup_trace Demo.globals Demo.audio Demo.audio_url)
  /\ count is_poll (snd (speech_to_text Demo.globals Demo2.rejects_submission)) = 0.
Proof.
  apply (stt_submission_failure Demo.globals Demo2.rejects_submission
           Demo.audio
           (Demo.ok_json (payload_of "upload_url" Demo.audio_url))
           (payload_of "upload_url" Demo.audio_url)
           Demo.audio_url
           {| status_code := 503; json := Returned PyNone |}).
  - reflexivity.
  - reflexivity.
  - reflexivity.
  - reflexivity.
  - reflexivity.
  - reflexivity.
  - simpl. lia.
Defined.

(** X6. When the upload answers 200 with a JSON object that has no
    [upload_url], the [KeyError] is caught: the handler returns
    [{"error": "'upload_url'"}] and makes no submission. *)
Theorem stt_upload_reply_without_url g remote audio_bytes upload d :
  file_read remote = Returned audio_bytes ->
  upload_reply remote (upload_headers g) audio_bytes = Returned upload ->
  status_code upload = 200%Z ->
  json upload = Returned (PyDict d) ->
  d !! "upload_url" = None ->
  speech_to_text g remote =
    (Returned (payload_of "error" (PyStr "'upload_url'")),
     [FileRead; Post upload_url (upload_headers g) (Data audio_bytes)])
  /\ count is_submission (snd (speech_to_text g remote)) = 0.
Proof.
  intros Hread Hup Hs1 Hj1 Hd.
  match goal with |- ?run = ?res /\ _ => assert (Hrun : run = res) end.
  { apply (speech_to_text_caught g remote (key_error "upload_url"));
      [|reflexivity].
    unfold speech_to_text_body.
    rewrite Hread. cbn. fold (upload_headers g). rewrite Hup. cbn.
    rewrite Hs1. cbn. rewrite Hj1. cbn. rewrite Hd. reflexivity. }
  rewrite Hrun. split; reflexivity.
Qed.

Lemma stt_upload_reply_without_url_witness :
  speech_to_text Demo.globals Demo2.upload_without_url =
    (Returned (payload_of "error" (PyStr "'upload_url'")),
     [FileRead; Post upload_url (upload_headers Demo.globals) (Data Demo.audio)])
  /\ count is_submission
       (snd (speech_to_text Demo.globals Demo2.upload_without_url)) = 0.
Proof.
  apply (stt_upload_reply_without_url Demo.globals Demo2.upload_without_url
           Demo.audio (Demo.ok_json (PyDict ∅)) ∅).
  - reflexivity.
  - reflexivity.
  - reflexivity.
  - reflexivity.
  - reflexivity.
Defined.

(** X7. When the poll of attempt [k] cannot be made or its body cannot be
    decoded - the GET or [.json()] raises an [Exception] [e] - the
    handler returns [{"error": str(e)}] and polls no more. *)
Theorem stt_poll_raises_on_attempt_k
    g remote audio_bytes audio_url transcript_id k e :
  let u := polling_url transcript_id in
  reaches_polling g remote audio_bytes audio_url transcript_id ->
  1 <= k <= max_attempts ->
  (forall j, j < k - 1 -> non_terminal (poll_reply remote u j) = true) ->
  (poll_reply remote u (k - 1) = Raised e
   \/ exists response, poll_reply remote u (k - 1) = Returned response
                       /\ json response = Raised e) ->
  isinstance_Exception e = true ->
  speech_to_text g remote =
    (Returned (payload_of "error" (PyStr (str e))),
     (setup_trace g audio_bytes audio_url
        ++ rounds g u (k - 1) ++ [Get u (auth_headers g)])%list).
Proof.
  intros u Hreach Hk Hpending Hfail He.
  apply speech_to_text_caught; [|exact He].
  apply speech_to_text_stops_on_poll; try assumption. fold u.
  rewrite poll_while_unfold.
  replace (k - 1 <? max_attempts)%nat with true
    by (symmetry; apply Nat.ltb_lt; lia).
  destruct Hfail as [-> | (response & -> & Hj)]; cbn; [reflexivity|].
  rewrite Hj. reflexivity.
Qed.

Lemma stt_poll_raises_on_attempt_k_witness :
  speech_to_text Demo.globals (Demo.remote_with Demo2.unreachable_on_second) =
    (Returned (payload_of "error" (PyStr "Read timed out.")),
     (setup_trace Demo.globals Demo.audio Demo.audio_url
        ++ rounds Demo.globals (polling_url Demo.job) 1
        ++ [Get (polling_url Demo.job) (auth_headers Demo.globals)])%list).
Proof.
  apply (stt_poll_raises_on_attempt_k Demo.globals
           (Demo.remote_with Demo2.unreachable_on_second)
           Demo.audio Demo.audio_url Demo.job 2 Demo2.timed_out).
  - apply demo_reaches_polling.
  - unfold max_attempts. lia.
  - intros j Hj. destruct j as [|j]; [reflexivity|simpl in Hj; lia].
  - left. reflexivity.
  - reflexivity.
Defined.

(** X8. When the poll of attempt [k] answers a JSON object without a
    [status], or one whose status is ["completed"] but that has no
    [text], the [KeyError] is caught: the handler returns
    [{"error": "'status'"}], respectively [{"error": "'text'"}], and polls
    no more. *)
Theorem stt_poll_reply_missing_key
    g remote audio_bytes audio_url transcript_id k response d key :
  let u := polling_url transcript_id in
  reaches_polling g remote audio_bytes audio_url transcript_id ->
  1 <= k <= max_attempts ->
  (forall j, j < k - 1 -> non_terminal (poll_reply remote u j) = true) ->
  poll_reply remote u (k - 1) = Returned response ->
  json response = Returned (PyDict d) ->
  (key = "status" /\ d !! "status" = None
   \/ key = "text" /\ d !! "status" = Some (PyStr "completed")
                   /\ d !! "text" = None) ->
  speech_to_text g remote =
    (Returned (payload_of "error" (PyStr ("'" +:+ key +:+ "'"))),
     (setup_trace g audio_bytes audio_url
        ++ rounds g u (k - 1) ++ [Get u (auth_headers g)])%list).
Proof.
  intros u Hreach Hk Hpending Hreply Hj Hkey.
  apply (speech_to_text_caught g remote (key_error key)); [|reflexivity].
  apply speech_to_text_stops_on_poll; try assumption. fold u.
  rewrite poll_while_unfold.
  replace (k - 1 <? max_attempts)%nat with true
    by (symmetry; apply Nat.ltb_lt; lia).
  rewrite Hreply. cbn. rewrite Hj. cbn.
  destruct Hkey as [[-> Hs] | (-> & Hs & Ht)]; rewrite Hs; cbn.
  - reflexivity.
  - rewrite Ht. reflexivity.
Qed.

Lemma stt_poll_reply_missing_key_witness :
  speech_to_text Demo.globals (Demo.remote_with Demo2.no_text_on_second) =
    (Returned (payload_of "error" (PyStr "'text'")),
     (setup_trace Demo.globals Demo.audio Demo.audio_url
        ++ rounds Demo.globals (polling_url Demo.job) 1
        ++ [Get (polling_url Demo.job) (auth_headers Demo.globals)])%list).
Proof.
  apply (stt_poll_reply_missing_key Demo.globals
           (Demo.remote_with Demo2.no_text_on_second)
           Demo.audio Demo.audio_url Demo.job 2
           (Demo.ok_json (payload_of "status" (PyStr "completed")))
           {[ "status" := PyStr "completed" ]} "text").
  - apply demo_reaches_polling.
  - unfold max_attempts. lia.
  - intros j Hj. destruct j as [|j]; [reflexivity|simpl in Hj; lia].
  - reflexivity.
  - reflexivity.
  - right. repeat split; reflexivity.
Defined.

(** ** [/chat] *)

(** X9. When the service answers and the first choice has a message, the
    handler hands the content of that message through unchanged as
    [{"response": content}] - [None] when the message has no content - in
    a single call. *)
Theorem chat_returns_first_choice
    groq_client user_message completion choice m :
  create groq_client (request_for user_message) = Returned completion ->
  first_choice completion = Returned choice ->
  message choice = Some m ->
  chat groq_client user_message =
    (Returned (payload_of "response" (of_getenv (content m))),
     [request_for user_message]).
Proof.
  intros Hc Hf Hm. unfold chat. rewrite Hc. cbn. rewrite Hf. cbn.
  unfold message_content. rewrite Hm. reflexivity.
Qed.

Lemma chat_returns_first_choice_witness :
  chat Demo2.friendly "Hello" =
    (Returned (payload_of "response" (PyStr "Hi there")),
     [request_for "Hello"]).
Proof.
  apply (chat_returns_first_choice Demo2.friendly "Hello"
           (completion_with (Some "Hi there"))
           {| message := Some {| content := Some "Hi there" |} |}
           {| content := Some "Hi there" |}).
  - reflexivity.
  - reflexivity.
  - reflexivity.
Defined.

(** X10. Whatever the service does, a [/chat] request calls it exactly
    once, with the request built from the user message (no retry), and
    ends with a [{"response": ...}] body unless the call raised an
    exception that is no [Exception]. *)
Theorem chat_calls_once_and_answers groq_client user_message :
  snd (chat groq_client user_message) = [request_for user_message]
  /\ ((exists v, fst (chat groq_client user_message)
                 = Returned (payload_of "response" v))
      \/ (exists e, fst (chat groq_client user_message) = Raised e
                    /\ isinstance_Exception e = false
                    /\ create groq_client (request_for user_message) = Raised e)).
Proof.
  unfold chat.
  destruct (create groq_client (request_for user_message))
    as [completion|e] eqn:Hc; cbn.
  - destruct (first_choice completion) as [choice|e] eqn:Hf; cbn.
    + destruct (message_content choice) as [reply|e] eqn:Hm; cbn.
      * split; [reflexivity|]. left. by eexists.
      * unfold message_content in Hm.
        destruct (message choice); [discriminate|]. injection Hm as <-.
        cbn. split; [reflexivity|]. left. by eexists.
    + unfold first_choice, list_getitem in Hf.
      destruct (choices completion) as [l|].
      * destruct (l !! 0); [discriminate|]. injection Hf as <-.
        cbn. split; [reflexivity|]. left. by eexists.
      * injection Hf as <-. cbn. split; [reflexivity|]. left. by eexists.
  - destruct (isinstance_Exception e) eqn:He; cbn.
    + split; [reflexivity|]. left. by eexists.
    + split; [reflexivity|]. right. by exists e.
Qed.

(** X11. A caller cannot tell a failure from an answer by the body: a
    service that fails with [e] and a service whose answer is the text
    ["Error: " + str(e)] give the same body. *)
Theorem chat_error_body_is_ambiguous failing answering user_message e :
  create failing (request_for user_message) = Raised e ->
  isinstance_Exception e = true ->
  create answering (request_for user_message)
    = Returned (completion_with (Some ("Error: " +:+ str e))) ->
  chat failing user_message = chat answering user_message.
Proof.
  intros Hf He Ha. unfold chat. rewrite Hf, Ha. cbn. rewrite He. reflexivity.
Qed.

Lemma chat_error_body_is_ambiguous_witness :
  chat Demo.unreachable "Hello" = chat Demo2.misleading "Hello".
Proof.
  apply (chat_error_body_is_ambiguous Demo.unreachable Demo2.misleading
           "Hello" Demo.connection_error).
  - reflexivity.
  - reflexivity.
  - reflexivity.
Defined.

(** ** File names *)

Lemma length_append (s t : string) :
  String.length (s +:+ t) = String.length s + String.length t.
Proof. induction s as [|c s IH]; simpl; [reflexivity|]. by f_equal. Qed.

Lemma append_cancel_r (s1 s2 t : string) : s1 +:+ t = s2 +:+ t -> s1 = s2.
Proof.
  revert s2. induction s1 as [|c s1 IH]; intros [|c' s2] H.
  - reflexivity.
  - apply (f_equal String.length) in H.
    rewrite !length_append in H. simpl in H. lia.
  - apply (f_equal String.length) in H.
    rewrite !length_append in H. simpl in H. lia.
  - simpl in H. injection H as -> H. f_equal. by apply IH.
Qed.

Lemma ends_with_append (suffix s : string) :
  ends_with suffix (s +:+ suffix) = true.
Proof.
  induction s as [|c s IH].
  - change ("" +:+ suffix) with suffix.
    destruct suffix; simpl; rewrite ?Ascii.eqb_refl, ?String.eqb_refl;
      reflexivity.
  - simpl. rewrite IH. apply orb_true_r.
Qed.

(** X12. The pattern of the cleanup selects exactly the names that end
    in [.mp3]: a name matches if and only if it is some stem, possibly
    empty, followed by [.mp3]. *)
Theorem matches_mp3_iff_suffix (name : string) :
  matches_mp3 name = true <-> exists stem, name = stem +:+ ".mp3".
Proof.
  unfold matches_mp3. split.
  - induction name as [|c name IH]; cbn [ends_with].
    + rewrite orb_false_r. intros H. apply String.eqb_eq in H. discriminate.
    + intros H. apply orb_true_iff in H as [H|H].
      * apply String.eqb_eq in H. exists "". by rewrite H.
      * destruct (IH H) as [stem ->]. by exists (String c stem).
  - intros [stem ->]. apply ends_with_append.
Qed.

(** ** [/tts] *)

(** X13. Whatever the synthesis does, a [/tts] request uses up exactly
    one identifier and leaves every entry of the temp directory other
    than its own file as it was. *)
Theorem tts_touches_only_its_own_file host text w other :
  other <> uuid4 host (draws w) +:+ ".mp3" ->
  temp_dir (snd (text_to_speech host text w)) !! other = temp_dir w !! other
  /\ draws (snd (text_to_speech host text w)) = S (draws w).
Proof.
  intros Hne. unfold text_to_speech, caught.
  destruct (gTTS host text "en") as [done|e]; cbn.
  - destruct (save host text) as [audio|e left_behind]; cbn.
    + split; [|reflexivity]. by apply lookup_insert_ne.
    + destruct (isinstance_Exception e); cbn; (split; [|reflexivity]);
        destruct left_behind; cbn; try reflexivity; by apply lookup_insert_ne.
  - destruct (isinstance_Exception e); cbn; by split.
Qed.

Lemma tts_touches_only_its_own_file_witness :
  temp_dir (snd (text_to_speech Demo.tts_host "Hello"
                   {| temp_dir := Demo.two_files; draws := 0 |})) !! "a.mp3"
    = Demo.two_files !! "a.mp3"
  /\ draws (snd (text_to_speech Demo.tts_host "Hello"
                   {| temp_dir := Demo.two_files; draws := 0 |})) = 1.
Proof.
  apply (tts_touches_only_its_own_file Demo.tts_host "Hello"
           {| temp_dir := Demo.two_files; draws := 0 |} "a.mp3").
  discriminate.
Defined.

(** X14. When the synthesis object cannot be built - [gTTS(text)] raises
    an [Exception] [e] - the handler returns the JSON body
    [{"error": str(e)}] and writes no file: the temp directory is as it
    was before the request. *)
Theorem tts_constructor_failure host text w e :
  gTTS host text "en" = Raised e ->
  isinstance_Exception e = true ->
  fst (text_to_speech host text w)
    = Returned (JSONBody (payload_of "error" (PyStr (str e))))
  /\ temp_dir (snd (text_to_speech host text w)) = temp_dir w.
Proof.
  intros Hnew He. unfold text_to_speech, caught. rewrite Hnew, He. by split.
Qed.

Lemma tts_constructor_failure_witness :
  fst (text_to_speech Demo2.refusing_tts "" Demo.empty_world)
    = Returned (JSONBody (payload_of "error" (PyStr "No text to speak")))
  /\ temp_dir (snd (text_to_speech Demo2.refusing_tts "" Demo.empty_world)) = ∅.
Proof.
  apply (tts_constructor_failure Demo2.refusing_tts "" Demo.empty_world
           Demo2.no_text).
  - reflexivity.
  - reflexivity.
Defined.

(** X15. Whatever the synthesis does, a [/tts] request ends in one of
    three ways: a file response with media type [audio/mpeg], download
    name [speech.mp3] and no background task, whose path is the file of
    this request in the temp directory, and that file exists; or the JSON
    body [{"error": ...}]; or an exception that is no [Exception]. *)
Theorem tts_always_answers_file_or_error host text w :
  match fst (text_to_speech host text w) with
  | Returned (FileBody r) =>
      path r = path_join TEMP_DIR (uuid4 host (draws w) +:+ ".mp3")
      /\ media_type r = "audio/mpeg"
      /\ filename r = "speech.mp3"
      /\ background r = None
      /\ is_Some (temp_dir (snd (text_to_speech host text w))
                    !! (uuid4 host (draws w) +:+ ".mp3"))
  | Returned (JSONBody v) => has_single_key "error" v
  | Raised e => isinstance_Exception e = false
  end.
Proof.
  unfold text_to_speech, caught.
  destruct (gTTS host text "en") as [done|e]; cbn.
  - destruct (save host text) as [audio|e left_behind]; cbn.
    + repeat split. rewrite lookup_insert_eq. by eexists.
    + destruct (isinstance_Exception e) eqn:He; cbn; [by eexists|exact He].
  - destruct (isinstance_Exception e) eqn:He; cbn; [by eexists|exact He].
Qed.

(** X16. Files pile up: after two successful requests in a row whose
    identifiers differ, the temp directory holds the audio of both, each
    under its own name. *)
Theorem tts_two_requests_keep_both_files
    host text1 text2 w done1 done2 audio1 audio2 :
  gTTS host text1 "en" = Returned done1 ->
  save host text1 = Saved audio1 ->
  gTTS host text2 "en" = Returned done2 ->
  save host text2 = Saved audio2 ->
  uuid4 host (draws w) <> uuid4 host (S (draws w)) ->
  let w1 := snd (text_to_speech host text1 w) in
  let w2 := snd (text_to_speech host text2 w1) in
  temp_dir w2 !! (uuid4 host (draws w) +:+ ".mp3") = Some audio1
  /\ temp_dir w2 !! (uuid4 host (S (draws w)) +:+ ".mp3") = Some audio2.
Proof.
  intros Hn1 Hs1 Hn2 Hs2 Hne w1 w2. unfold w2, w1, text_to_speech.
  rewrite Hn1, Hs1. cbn. rewrite Hn2, Hs2. cbn. split.
  - rewrite lookup_insert_ne; [apply lookup_insert_eq|].
    intros H. apply Hne. symmetry. by apply append_cancel_r in H.
  - apply lookup_insert_eq.
Qed.

Lemma tts_two_requests_keep_both_files_witness :
  let w1 := snd (text_to_speech Demo.tts_host "one" Demo.empty_world) in
  let w2 := snd (text_to_speech Demo.tts_host "two" w1) in
  temp_dir w2 !! "id-0.mp3" = Some Demo.audio
  /\ temp_dir w2 !! "id-00.mp3" = Some Demo.audio.
Proof.
  apply (tts_two_requests_keep_both_files Demo.tts_host "one" "two"
           Demo.empty_world tt tt Demo.audio Demo.audio).
  - reflexivity.
  - reflexivity.
  - reflexivity.
  - reflexivity.
  - discriminate.
Defined.

(** X17. Nothing guards against a repeated identifier: when the
    generator returns for a second request the identifier of the first,
    the second request overwrites the file of the first and both
    responses point to the same path. *)
Theorem tts_repeated_identifier_overwrites
    host text1 text2 w done1 done2 audio1 audio2 :
  gTTS host text1 "en" = Returned done1 ->
  save host text1 = Saved audio1 ->
  gTTS host text2 "en" = Returned done2 ->
  save host text2 = Saved audio2 ->
  uuid4 host (draws w) = uuid4 host (S (draws w)) ->
  let w1 := snd (text_to_speech host text1 w) in
  let w2 := snd (text_to_speech host text2 w1) in
  temp_dir w1 !! (uuid4 host (draws w) +:+ ".mp3") = Some audio1
  /\ temp_dir w2 !! (uuid4 host (draws w) +:+ ".mp3") = Some audio2
  /\ fst (text_to_speech host text1 w) = fst (text_to_speech host text2 w1).
Proof.
  intros Hn1 Hs1 Hn2 Hs2 Heq w1 w2. unfold w2, w1, text_to_speech.
  rewrite Hn1, Hs1. cbn. rewrite Hn2, Hs2. cbn. rewrite <- Heq.
  repeat split; apply lookup_insert_eq.
Qed.

Lemma tts_repeated_identifier_overwrites_witness :
  let w1 := snd (text_to_speech Demo2.repeating_tts "first" Demo.empty_world) in
  let w2 := snd (text_to_speech Demo2.repeating_tts "second" w1) in
  temp_dir w1 !! "same.mp3" = Some Demo.audio
  /\ temp_dir w2 !! "same.mp3" = Some []
  /\ fst (text_to_speech Demo2.repeating_tts "first" Demo.empty_world)
     = fst (text_to_speech Demo2.repeating_tts "second" w1).
Proof.
  apply (tts_repeated_identifier_overwrites Demo2.repeating_tts
           "first" "second" Demo.empty_world tt tt Demo.audio []).
  - reflexivity.
  - reflexivity.
  - reflexivity.
  - reflexivity.
  - reflexivity.
Defined.

(** ** The startup cleanup *)

(** What the sweep leaves of each entry. *)
Lemma cleanup_lookup unlink (dir : gmap string (list Byte.byte)) name :
  snd (cleanup_old_files unlink dir) !! name =
  match unlink name with
  | None => if matches_mp3 name then None else dir !! name
  | Some _ => dir !! name
  end.
Proof.
  unfold cleanup_old_files. cbn [snd]. rewrite foldl_unlink_lookup.
  destruct (unlink name); [reflexivity|].
  destruct (decide (name ∈ glob_mp3 dir)) as [Hin|Hnin].
  - rewrite bool_decide_eq_true_2 by assumption.
    apply elem_of_glob_mp3 in Hin as [-> _]. reflexivity.
  - rewrite bool_decide_eq_false_2 by assumption.
    destruct (matches_mp3 name) eqn:Em; [|reflexivity].
    destruct (dir !! name) eqn:Ed; [|reflexivity].
    exfalso. apply Hnin, elem_of_glob_mp3. split; [assumption|].
    rewrite Ed. by eexists.
Qed.

(** X18. The sweep only removes: every entry that is in the temp
    directory afterwards was there before, with the same content. *)
Theorem cleanup_only_removes unlink (dir : gmap string (list Byte.byte)) :
  snd (cleanup_old_files unlink dir) ⊆ dir.
Proof.
  apply map_subseteq_spec. intros name x. rewrite cleanup_lookup.
  destruct (unlink name); [done|]. by destruct (matches_mp3 name).
Qed.

(** X19. Sweeping twice is sweeping once: with the same deletions
    failing, a second run of the cleanup finds nothing more to remove. *)
Theorem cleanup_twice_is_once unlink (dir : gmap string (list Byte.byte)) :
  cleanup_old_files unlink (snd (cleanup_old_files unlink dir))
  = cleanup_old_files unlink dir.
Proof.
  assert (H : snd (cleanup_old_files unlink (snd (cleanup_old_files unlink dir)))
              = snd (cleanup_old_files unlink dir)).
  { apply map_eq. intros name. rewrite !cleanup_lookup.
    destruct (unlink name); [reflexivity|]. by destruct (matches_mp3 name). }
  unfold cleanup_old_files in *. cbn [snd] in *. by f_equal.
Qed.

(** X20. What a request leaves behind, the next start removes: the file
    a successful [/tts] request wrote is matched by the cleanup pattern
    and is gone after the sweep, when its deletion goes through. *)
Theorem tts_file_removed_at_next_startup host text w done audio unlink :
  gTTS host text "en" = Returned done ->
  save host text = Saved audio ->
  unlink (uuid4 host (draws w) +:+ ".mp3") = None ->
  let name := uuid4 host (draws w) +:+ ".mp3" in
  let dir := temp_dir (snd (text_to_speech host text w)) in
  dir !! name = Some audio
  /\ name ∈ glob_mp3 dir
  /\ snd (cleanup_old_files unlink dir) !! name = None.
Proof.
  intros Hnew Hsave Hunlink name dir.
  assert (Hdir : dir !! name = Some audio).
  { unfold dir, text_to_speech. rewrite Hnew, Hsave. cbn.
    apply lookup_insert_eq. }
  assert (Hm : matches_mp3 name = true) by apply ends_with_append.
  split; [exact Hdir|]. split.
  - apply elem_of_glob_mp3. split; [exact Hm|]. rewrite Hdir. by eexists.
  - rewrite cleanup_lookup. fold name in Hunlink. by rewrite Hunlink, Hm.
Qed.

Lemma tts_file_removed_at_next_startup_witness :
  let dir := temp_dir (snd (text_to_speech Demo.tts_host "Hello" Demo.empty_world)) in
  dir !! "id-0.mp3" = Some Demo.audio
  /\ "id-0.mp3" ∈ glob_mp3 dir
  /\ snd (cleanup_old_files Demo.unlink_ok dir) !! "id-0.mp3" = None.
Proof.
  apply (tts_file_removed_at_next_startup Demo.tts_host "Hello"
           Demo.empty_world tt Demo.audio Demo.unlink_ok).
  - reflexivity.
  - reflexivity.
  - reflexivity.
Defined.

(** ** Start-up *)

(** X21. The credentials are checked in source order: whenever
    [GROQ_API_KEY] is absent or empty the error names [GROQ_API_KEY],
    whatever the other variable holds; the error names
    [ASSEMBLYAI_API_KEY] only when [GROQ_API_KEY] passed. *)
Theorem credential_errors_in_source_order (environ : gmap string string) :
  (truthy (getenv environ "GROQ_API_KEY") = false ->
   load_credentials environ
     = Raised (PyExc ValueError "GROQ_API_KEY not found in .env"))
  /\ (load_credentials environ
        = Raised (PyExc ValueError "ASSEMBLYAI_API_KEY not found in .env") ->
      truthy (getenv environ "GROQ_API_KEY") = true
      /\ truthy (getenv environ "ASSEMBLYAI_API_KEY") = false).
Proof.
  unfold load_credentials.
  destruct (truthy (getenv environ "GROQ_API_KEY")); cbn.
  - split; [discriminate|].
    destruct (truthy (getenv environ "ASSEMBLYAI_API_KEY")); cbn;
      [discriminate|by split].
  - split; [reflexivity|discriminate].
Qed.

Lemma credential_errors_in_source_order_witness :
  load_credentials (∅ : gmap string string)
    = Raised (PyExc ValueError "GROQ_API_KEY not found in .env")
  /\ truthy (getenv Demo.environ_no_groq "ASSEMBLYAI_API_KEY") = true.
Proof.
  split.
  - apply (credential_errors_in_source_order ∅). reflexivity.
  - reflexivity.
Defined.

(** X22. On a process that started, the credential the [/stt] requests
    carry is the non-empty string the environment held under
    [ASSEMBLYAI_API_KEY] at start-up: no request ever goes out with a
    missing or empty credential. *)
Theorem running_process_sends_its_credential
    host dotenv environ app remote :
  module_init host dotenv environ = Returned app ->
  exists key,
    getenv (load_dotenv dotenv environ) "ASSEMBLYAI_API_KEY" = Some key
    /\ key <> ""
    /\ Forall (sends_key key) (snd (speech_to_text (app_globals app) remote)).
Proof.
  intros Hinit.
  assert (Hg : load_credentials (load_dotenv dotenv environ)
               = Returned (app_globals app)).
  { unfold module_init in Hinit.
    destruct (load_credentials (load_dotenv dotenv environ)) as [g|];
      [|discriminate].
    destruct (groq_client_new host _); [|discriminate].
    destruct (temp_dir_mkdir host); [|discriminate].
    by injection Hinit as <-. }
  unfold load_credentials in Hg.
  set (env := load_dotenv dotenv environ) in *.
  destruct (truthy (getenv env "GROQ_API_KEY")); cbn in Hg; [|discriminate].
  destruct (truthy (getenv env "ASSEMBLYAI_API_KEY")) eqn:Ea; cbn in Hg;
    [|discriminate].
  injection Hg as Hg.
  apply truthy_true in Ea as (key & Hkey & Hne).
  exists key. split; [exact Hkey|]. split; [exact Hne|].
  eapply Forall_impl; [apply stt_run_authenticated|].
  intros ev. unfold authenticated, sends_key. rewrite <- Hg. cbn.
  rewrite Hkey. by destruct ev.
Qed.

Lemma running_process_sends_its_credential_witness :
  exists key,
    getenv (load_dotenv ∅ Demo.environ) "ASSEMBLYAI_API_KEY" = Some key
    /\ key <> ""
    /\ Forall (sends_key key)
         (snd (speech_to_text Demo.globals (Demo.remote_with Demo.never_finishes))).
Proof.
  apply (running_process_sends_its_credential Demo.host ∅ Demo.environ
           {| app_globals := Demo.globals; app_routes := routes |}
           (Demo.remote_with Demo.never_finishes)).
  reflexivity.
Defined.
